(** * Consul cluster provider of protoactor-go: model and verified properties

    Source: [cluster/consul/consul_provider.go].

    The provider is a Go struct mutated in place by its methods, which talk
    to a Consul agent and publish topology events on the actor system's
    event stream.  The embedding threads an explicit state made of the
    [Provider] struct, the state of the directory service and the
    chronological trace of everything the provider did to the outside
    (directory calls with their results, publications, sleeps, log lines).
    A nil dereference is a Go panic, which ends the computation.

    The [int] and [uint64] fields ([port], [index]) are stored, compared and
    printed but never computed with, so they are integers of [Z] and no
    wrap-around arises.  A [go] statement and [WaitGroup.Wait] are recorded
    in the trace; what a goroutine does is given by a function of its own
    that runs a bounded number of passes of its loop. *)

From Stdlib Require Import ZArith DecimalString.
From Stdlib Require DecimalZ DecimalPos.
From stdpp Require Import base option list strings gmap.

Set Default Proof Using "Type".

(** ** Go values used by the provider *)

(** A Go [error] is identified by its message; the nil error is [None]. *)
Definition error := string.

(** [fmt.Sprintf("%v", n)] for an [int]. *)
Definition itoa (n : Z) : string := NilZero.string_of_int (Z.to_int n).

(** [time.Duration] is a count of nanoseconds. *)
Definition Duration := Z.
Definition Second : Duration := 1000000000%Z.

(** ** The Consul client API, as far as the provider uses it *)
Module api.

Definition HealthPassing : string := "passing".

Record AgentServiceCheck := mkAgentServiceCheck {
  DeregisterCriticalServiceAfter : string;
  TTL : string
}.

Module AgentServiceRegistration.
Record t := mk {
  ID : string;
  Name : string;
  Tags : list string;
  Address : string;
  Port : Z;
  Meta : gmap string string;
  Check : AgentServiceCheck
}.
End AgentServiceRegistration.

Module AgentService.
Record t := mk {
  ID : string;
  Service : string;
  Tags : list string;
  Address : string;
  Port : Z;
  Meta : gmap string string
}.
End AgentService.

Record HealthCheck := mkHealthCheck {
  CheckID : string;
  Status : string
}.

Definition HealthChecks := list HealthCheck.

Record ServiceEntry := mkServiceEntry {
  Service : AgentService.t;
  Checks : HealthChecks
}.

Record QueryOptions := mkQueryOptions {
  WaitIndex : Z;
  WaitTime : Duration
}.

Record QueryMeta := mkQueryMeta {
  LastIndex : Z
}.

(** The agent and health endpoints of [*api.Client].  Every call may change
    the directory, whose state has type [W].  [Health_Service] returns
    either an error or the entries together with the query meta data. *)
Record Client (W : Type) := mkClient {
  Agent_ServiceRegister : AgentServiceRegistration.t -> W -> option error * W;
  Agent_ServiceDeregister : string -> W -> option error * W;
  Agent_UpdateTTL : string -> string -> string -> W -> option error * W;
  Agent_Services : W -> (gmap string AgentService.t * option error) * W;
  Health_Service :
    string -> string -> bool -> QueryOptions -> W ->
    (error + list ServiceEntry * QueryMeta) * W
}.
Arguments Agent_ServiceRegister {W}.
Arguments Agent_ServiceDeregister {W}.
Arguments Agent_UpdateTTL {W}.
Arguments Agent_Services {W}.
Arguments Health_Service {W}.

End api.

(** ** The [cluster] package, as far as the provider uses it *)
Module cluster.

Record MemberStatus (SV : Type) := mkMemberStatus {
  MemberID : string;
  Host : string;
  Port : Z;
  Kinds : list string;
  Alive : bool;
  StatusValue : option SV
}.
Arguments mkMemberStatus {SV}.
Arguments MemberID {SV}.
Arguments Host {SV}.
Arguments Port {SV}.
Arguments Kinds {SV}.
Arguments Alive {SV}.
Arguments StatusValue {SV}.

(** [type TopologyEvent []*MemberStatus]: a slot holds nil until it is
    assigned. *)
Abbreviation TopologyEvent SV := (list (option (MemberStatus SV))).

(** The [MemberStatusValueSerializer] interface. *)
Record MemberStatusValueSerializer (SV : Type) := mkSerializer {
  Serialize : option SV -> string;
  Deserialize : string -> option SV
}.
Arguments Serialize {SV}.
Arguments Deserialize {SV}.

End cluster.

Definition ProviderShuttingDownError : error :=
  "consul cluster provider is shutting down".

(** Reading a key of a Go [map[string]string]: the zero value when absent. *)
Definition map_index (m : gmap string string) (k : string) : string :=
  default "" (m !! k).

(** ** What the provider is linked against

    [SV] are the dynamic values of [cluster.MemberStatusValue], [Cluster]
    stands for a [*cluster.Cluster] that is not nil, [W] is the state of the
    directory and [client] the client built by [api.NewClient].
    [api.HealthChecks.AggregatedStatus] and [time.Duration.String] belong to
    the Consul client and to the Go library. *)
Class Env := mkEnv {
  SV : Type;
  Cluster : Type;
  W : Type;
  client : api.Client W;
  AggregatedStatus : api.HealthChecks -> string;
  Duration_String : Duration -> string
}.

Section Provider.

Context `{Env}.

Record Provider := mkProvider {
  cluster : option Cluster;
  deregistered : bool;
  shutdown : bool;
  id : string;
  clusterName : string;
  address : string;
  port : Z;
  knownKinds : list string;
  index : Z;
  ttl : Duration;
  refreshTTL : Duration;
  updateTTLWaitGroup : Z;
  deregisterCritical : Duration;
  blockingWaitTime : Duration;
  statusValue : option SV;
  statusValueSerializer : option (cluster.MemberStatusValueSerializer SV);
  clusterError : option error
}.

(** Assignments to single fields of [*Provider]. *)
Definition set_cluster (x : option Cluster) (p : Provider) : Provider :=
  mkProvider x (deregistered p) (shutdown p) (id p) (clusterName p)
    (address p) (port p) (knownKinds p) (index p) (ttl p) (refreshTTL p)
    (updateTTLWaitGroup p) (deregisterCritical p) (blockingWaitTime p)
    (statusValue p) (statusValueSerializer p) (clusterError p).

Definition set_deregistered (x : bool) (p : Provider) : Provider :=
  mkProvider (cluster p) x (shutdown p) (id p) (clusterName p)
    (address p) (port p) (knownKinds p) (index p) (ttl p) (refreshTTL p)
    (updateTTLWaitGroup p) (deregisterCritical p) (blockingWaitTime p)
    (statusValue p) (statusValueSerializer p) (clusterError p).

Definition set_shutdown (x : bool) (p : Provider) : Provider :=
  mkProvider (cluster p) (deregistered p) x (id p) (clusterName p)
    (address p) (port p) (knownKinds p) (index p) (ttl p) (refreshTTL p)
    (updateTTLWaitGroup p) (deregisterCritical p) (blockingWaitTime p)
    (statusValue p) (statusValueSerializer p) (clusterError p).

Definition set_id (x : string) (p : Provider) : Provider :=
  mkProvider (cluster p) (deregistered p) (shutdown p) x (clusterName p)
    (address p) (port p) (knownKinds p) (index p) (ttl p) (refreshTTL p)
    (updateTTLWaitGroup p) (deregisterCritical p) (blockingWaitTime p)
    (statusValue p) (statusValueSerializer p) (clusterError p).

Definition set_clusterName (x : string) (p : Provider) : Provider :=
  mkProvider (cluster p) (deregistered p) (shutdown p) (id p) x
    (address p) (port p) (knownKinds p) (index p) (ttl p) (refreshTTL p)
    (updateTTLWaitGroup p) (deregisterCritical p) (blockingWaitTime p)
    (statusValue p) (statusValueSerializer p) (clusterError p).

Definition set_address (x : string) (p : Provider) : Provider :=
  mkProvider (cluster p) (deregistered p) (shutdown p) (id p) (clusterName p)
    x (port p) (knownKinds p) (index p) (ttl p) (refreshTTL p)
    (updateTTLWaitGroup p) (deregisterCritical p) (blockingWaitTime p)
    (statusValue p) (statusValueSerializer p) (clusterError p).

Definition set_port (x : Z) (p : Provider) : Provider :=
  mkProvider (cluster p) (deregistered p) (shutdown p) (id p) (clusterName p)
    (address p) x (knownKinds p) (index p) (ttl p) (refreshTTL p)
    (updateTTLWaitGroup p) (deregisterCritical p) (blockingWaitTime p)
    (statusValue p) (statusValueSerializer p) (clusterError p).

Definition set_knownKinds (x : list string) (p : Provider) : Provider :=
  mkProvider (cluster p) (deregistered p) (shutdown p) (id p) (clusterName p)
    (address p) (port p) x (index p) (ttl p) (refreshTTL p)
    (updateTTLWaitGroup p) (deregisterCritical p) (blockingWaitTime p)
    (statusValue p) (statusValueSerializer p) (clusterError p).

Definition set_index (x : Z) (p : Provider) : Provider :=
  mkProvider (cluster p) (deregistered p) (shutdown p) (id p) (clusterName p)
    (address p) (port p) (knownKinds p) x (ttl p) (refreshTTL p)
    (updateTTLWaitGroup p) (deregisterCritical p) (blockingWaitTime p)
    (statusValue p) (statusValueSerializer p) (clusterError p).

Definition set_updateTTLWaitGroup (x : Z) (p : Provider) : Provider :=
  mkProvider (cluster p) (deregistered p) (shutdown p) (id p) (clusterName p)
    (address p) (port p) (knownKinds p) (index p) (ttl p) (refreshTTL p)
    x (deregisterCritical p) (blockingWaitTime p)
    (statusValue p) (statusValueSerializer p) (clusterError p).

Definition set_statusValue (x : option SV) (p : Provider) : Provider :=
  mkProvider (cluster p) (deregistered p) (shutdown p) (id p) (clusterName p)
    (address p) (port p) (knownKinds p) (index p) (ttl p) (refreshTTL p)
    (updateTTLWaitGroup p) (deregisterCritical p) (blockingWaitTime p)
    x (statusValueSerializer p) (clusterError p).

Definition set_statusValueSerializer
    (x : option (cluster.MemberStatusValueSerializer SV)) (p : Provider)
    : Provider :=
  mkProvider (cluster p) (deregistered p) (shutdown p) (id p) (clusterName p)
    (address p) (port p) (knownKinds p) (index p) (ttl p) (refreshTTL p)
    (updateTTLWaitGroup p) (deregisterCritical p) (blockingWaitTime p)
    (statusValue p) x (clusterError p).

Definition set_clusterError (x : option error) (p : Provider) : Provider :=
  mkProvider (cluster p) (deregistered p) (shutdown p) (id p) (clusterName p)
    (address p) (port p) (knownKinds p) (index p) (ttl p) (refreshTTL p)
    (updateTTLWaitGroup p) (deregisterCritical p) (blockingWaitTime p)
    (statusValue p) (statusValueSerializer p) x.

(** Everything the provider does to the outside, in the order it happens.
    A directory call is recorded with its arguments and its result. *)
Inductive Event :=
| EvServiceRegister (s : api.AgentServiceRegistration.t) (err : option error)
| EvServiceDeregister (serviceID : string) (err : option error)
| EvUpdateTTL (checkID output status : string) (err : option error)
| EvServices (r : gmap string api.AgentService.t * option error)
| EvHealthService (service tag : string) (passingOnly : bool)
    (q : api.QueryOptions) (r : error + list api.ServiceEntry * api.QueryMeta)
| EvPublish (c : Cluster) (evt : cluster.TopologyEvent SV)
| EvSleep (d : Duration)
| EvLog (msg : string)
| EvPrintln (msg : string)
| EvWaitGroupWait
| EvGo (goroutine : string).

Definition is_register_call (e : Event) : bool :=
  match e with EvServiceRegister _ _ => true | _ => false end.

Definition is_publish (e : Event) : bool :=
  match e with EvPublish _ _ => true | _ => false end.

Record State := mkState {
  prov : Provider;
  world : W;
  trace : list Event
}.

(** ** The monad of provider code: state, and panics that end the run *)

Inductive Res (A : Type) :=
| Ret (a : A) (s : State)
| Panic (s : State).
#[global] Arguments Ret {A}.
#[global] Arguments Panic {A}.

Definition M (A : Type) := State -> Res A.

Definition ret {A} (a : A) : M A := fun s => Ret a s.

Definition bind {A B} (m : M A) (k : A -> M B) : M B :=
  fun s => match m s with
           | Ret a s' => k a s'
           | Panic s' => Panic s'
           end.

(** The state a computation ends in, whether it returned or panicked. *)
Definition final {A} (r : Res A) : State :=
  match r with Ret _ s => s | Panic s => s end.

Definition returned {A} (r : Res A) : option A :=
  match r with Ret a _ => Some a | Panic _ => None end.

End Provider.

Declare Scope go_scope.
Delimit Scope go_scope with go.
Notation "x <- m ;; k" := (bind m (fun x => k))
  (at level 100, m at next level, k at level 200, right associativity)
  : go_scope.
Notation "m ;; k" := (bind m (fun _ => k))
  (at level 100, k at level 200, right associativity) : go_scope.
Open Scope go_scope.

Section Operations.

Context `{Env}.

Definition get : M Provider := fun s => Ret (prov s) s.

Definition modify (f : Provider -> Provider) : M unit :=
  fun s => Ret tt (mkState (f (prov s)) (world s) (trace s)).

Definition emit (e : Event) : M unit :=
  fun s => Ret tt (mkState (prov s) (world s) (trace s ++ [e])).

Definition panic {A} : M A := fun s => Panic s.

(** Use of a pointer or interface value that may be nil. *)
Definition deref {A} (o : option A) : M A :=
  match o with Some a => ret a | None => panic end.

(** A call to the directory: it may change the directory and is recorded
    with what it returned. *)
Definition call {A} (f : W -> A * W) (ev : A -> Event) : M A :=
  fun s => let '(a, w) := f (world s) in
           Ret a (mkState (prov s) w (trace s ++ [ev a])).

(** ** The provider's functions, in the order of the source file *)

(** [NewWithConfig]: [newClient] is the error result of [api.NewClient]. *)
Definition NewWithConfig (newClient : option error) : error + Provider :=
  match newClient with
  | Some err => inl err
  | None =>
    inr (mkProvider None false false "" "" "" 0%Z [] 0%Z
           (3 * Second)%Z (1 * Second)%Z 0%Z (60 * Second)%Z (20 * Second)%Z
           None None None)
  end.

Definition New (newClient : option error) : error + Provider :=
  NewWithConfig newClient.

(** [fmt.Sprintf("%v@%v:%v", clusterName, address, port)] *)
Definition Sprintf_at (clusterName address : string) (port : Z) : string :=
  clusterName +:+ "@" +:+ address +:+ ":" +:+ itoa port.

(** [fmt.Sprintf("%v/%v:%v", clusterName, address, port)] *)
Definition Sprintf_slash (clusterName address : string) (port : Z) : string :=
  clusterName +:+ "/" +:+ address +:+ ":" +:+ itoa port.

(** The [api.AgentServiceRegistration] literal of [registerService]. *)
Definition registration (p : Provider)
    (ser : cluster.MemberStatusValueSerializer SV)
    : api.AgentServiceRegistration.t :=
  api.AgentServiceRegistration.mk
    (id p) (clusterName p) (knownKinds p) (address p) (port p)
    {[ "StatusValue" := cluster.Serialize ser (statusValue p) ]}
    (api.mkAgentServiceCheck
       (Duration_String (deregisterCritical p))
       (Duration_String (ttl p))).

Definition registerService : M (option error) :=
  p <- get ;;
  ser <- deref (statusValueSerializer p) ;;
  let s := registration p ser in
  call (api.Agent_ServiceRegister client s) (EvServiceRegister s).

Definition deregisterService : M (option error) :=
  p <- get ;;
  call (api.Agent_ServiceDeregister client (id p)) (EvServiceDeregister (id p)).

(** [blockingUpdateTTLFunc] is a package variable bound to this function. *)
Definition blockingUpdateTTL : M (option error) :=
  p <- get ;;
  let checkID := "service:" +:+ id p in
  err <- call (api.Agent_UpdateTTL client checkID "" api.HealthPassing)
              (EvUpdateTTL checkID "" api.HealthPassing) ;;
  modify (set_clusterError err) ;;
  p <- get ;;
  ret (clusterError p).

(** One pass of [for i, v := range statuses] in [notifyStatuses]. *)
Definition notify_entry (i : nat) (v : api.ServiceEntry)
    (res : cluster.TopologyEvent SV) : M (cluster.TopologyEvent SV) :=
  p <- get ;;
  let key :=
    Sprintf_slash (clusterName p) (api.AgentService.Address (api.Service v))
      (api.AgentService.Port (api.Service v)) in
  let memberID := key in
  ser <- deref (statusValueSerializer p) ;;
  let memberStatusVal :=
    cluster.Deserialize ser
      (map_index (api.AgentService.Meta (api.Service v)) "StatusValue") in
  let ms :=
    cluster.mkMemberStatus
      memberID
      (api.AgentService.Address (api.Service v))
      (api.AgentService.Port (api.Service v))
      (api.AgentService.Tags (api.Service v))
      (bool_decide (0 < length (api.Checks v))%nat
       && String.eqb (AggregatedStatus (api.Checks v)) api.HealthPassing)
      memberStatusVal in
  let res := <[ i := Some ms ]> res in
  (if String.eqb memberID (id p)
   then modify (set_knownKinds (api.AgentService.Tags (api.Service v)))
   else ret tt) ;;
  ret res.

Fixpoint notify_range (i : nat) (statuses : list api.ServiceEntry)
    (res : cluster.TopologyEvent SV) : M (cluster.TopologyEvent SV) :=
  match statuses with
  | [] => ret res
  | v :: rest =>
    res <- notify_entry i v res ;;
    notify_range (S i) rest res
  end.

Definition notifyStatuses : M unit :=
  p <- get ;;
  let q := api.mkQueryOptions (index p) (blockingWaitTime p) in
  r <- call (api.Health_Service client (clusterName p) "" false q)
            (EvHealthService (clusterName p) "" false q) ;;
  match r with
  | inl err => emit (EvLog ("Error " +:+ err))
  | inr (statuses, meta) =>
    modify (set_index (api.LastIndex meta)) ;;
    res <- notify_range 0 statuses (replicate (length statuses) None) ;;
    p <- get ;;
    c <- deref (cluster p) ;;
    emit (EvPublish c res)
  end.

Definition blockingStatusChange : M unit := notifyStatuses.

(** [for id := range services] in the heartbeat: [true] when the loop left
    through [continue OUTER].  Go visits the keys of a map in an unspecified
    order; the keys are taken here in the order of [map_to_list], and
    [elem_of_keys] below shows that only their set matters. *)
Fixpoint range_services (ids : list string) : M bool :=
  match ids with
  | [] => ret false
  | i :: rest =>
    p <- get ;;
    if String.eqb i (id p) then
      emit (EvLog "[CLUSTER] [CONSUL] Service found in consul -> doing nothing") ;;
      emit (EvSleep (refreshTTL p)) ;;
      ret true
    else range_services rest
  end.

(** The end of a pass that did not find the service: register again, log
    the outcome, sleep. *)
Definition UpdateTTL_reregister : M unit :=
  err <- registerService ;;
  match err with
  | Some e =>
    emit (EvLog ("[CLUSTER] [CONSUL] Error reregistering service " +:+ " " +:+ e)) ;;
    p <- get ;;
    emit (EvSleep (refreshTTL p))
  | None =>
    emit (EvLog "[CLUSTER] [CONSUL] Reregistered service in consul") ;;
    p <- get ;;
    emit (EvSleep (refreshTTL p))
  end.

(** The body of the [for !p.shutdown] loop of the heartbeat goroutine.  The
    error result of [Services] is overwritten without being read. *)
Definition UpdateTTL_body : M unit :=
  err <- blockingUpdateTTL ;;
  match err with
  | None =>
    p <- get ;;
    emit (EvSleep (refreshTTL p))
  | Some _ =>
    emit (EvLog "[CLUSTER] [CONSUL] Failure refreshing service TTL. Trying to reregister service if not in consul.") ;;
    r <- call (api.Agent_Services client) EvServices ;;
    found <- range_services (map_to_list r.1).*1 ;;
    if found then ret tt else UpdateTTL_reregister
  end.

(** The loop itself: [true] when it ended because [p.shutdown] was seen,
    [false] when the passes allowed by [fuel] are used up and it still runs. *)
Fixpoint UpdateTTL_loop (fuel : nat) : M bool :=
  p <- get ;;
  if shutdown p then ret true
  else match fuel with
       | O => ret false
       | S n => UpdateTTL_body ;; UpdateTTL_loop n
       end.

(** The goroutine started by [UpdateTTL]; [Done] is deferred to its end. *)
Definition UpdateTTL_goroutine (fuel : nat) : M bool :=
  p <- get ;;
  modify (set_updateTTLWaitGroup (updateTTLWaitGroup p + 1)%Z) ;;
  stopped <- UpdateTTL_loop fuel ;;
  if stopped then
    p <- get ;;
    modify (set_updateTTLWaitGroup (updateTTLWaitGroup p - 1)%Z) ;;
    ret true
  else ret false.

Definition UpdateTTL : M unit := emit (EvGo "UpdateTTL").

Definition RegisterMember (cluster : option Cluster)
    (clusterName address : string) (port : Z) (knownKinds : list string)
    (statusValue : option SV)
    (serializer : option (cluster.MemberStatusValueSerializer SV))
    : M (option error) :=
  modify (set_cluster cluster) ;;
  modify (set_id (Sprintf_at clusterName address port)) ;;
  modify (set_clusterName clusterName) ;;
  modify (set_address address) ;;
  modify (set_port port) ;;
  modify (set_knownKinds knownKinds) ;;
  modify (set_statusValue statusValue) ;;
  modify (set_statusValueSerializer serializer) ;;
  err <- registerService ;;
  match err with
  | Some e => ret (Some e)
  | None =>
    err <- blockingUpdateTTL ;;
    match err with
    | Some e => ret (Some e)
    | None =>
      blockingStatusChange ;;
      UpdateTTL ;;
      ret None
    end
  end.

Definition DeregisterMember : M (option error) :=
  err <- deregisterService ;;
  match err with
  | Some e =>
    emit (EvPrintln e) ;;
    ret (Some e)
  | None =>
    modify (set_deregistered true) ;;
    ret None
  end.

Definition Shutdown : M (option error) :=
  p <- get ;;
  if shutdown p then ret None
  else
    modify (set_shutdown true) ;;
    emit EvWaitGroupWait ;;
    p <- get ;;
    if negb (deregistered p) then
      err <- DeregisterMember ;;
      match err with
      | Some e => ret (Some e)
      | None => ret None
      end
    else ret None.

Definition UpdateMemberStatusValue (statusValue' : option SV)
    : M (option error) :=
  modify (set_statusValue statusValue') ;;
  p <- get ;;
  match statusValue p with
  | None => ret None
  | Some _ =>
    if shutdown p then ret (Some ProviderShuttingDownError)
    else registerService
  end.

(** The loop of the goroutine started by [MonitorMemberStatusChanges]. *)
Fixpoint Monitor_loop (fuel : nat) : M bool :=
  p <- get ;;
  if shutdown p then ret true
  else match fuel with
       | O => ret false
       | S n => notifyStatuses ;; Monitor_loop n
       end.

Definition MonitorMemberStatusChanges : M unit :=
  emit (EvGo "MonitorMemberStatusChanges").

Definition GetHealthStatus : M (option error) :=
  p <- get ;;
  ret (clusterError p).

End Operations.

(** ** The provider's operations as a whole

    The exported methods, the unexported helpers and the two goroutines
    (run for a bounded number of passes), so that a run of the provider is a
    list of operations in the order in which they take effect.  Goroutines
    interleave inside an operation too; for the two flags this makes no
    difference, since no statement of the file assigns false to either. *)
Section Runs.

Context `{Env}.

Inductive Op :=
| OpRegisterMember (cluster : option Cluster) (clusterName address : string)
    (port : Z) (knownKinds : list string) (statusValue : option SV)
    (serializer : option (cluster.MemberStatusValueSerializer SV))
| OpDeregisterMember
| OpShutdown
| OpUpdateTTL
| OpUpdateTTL_goroutine (fuel : nat)
| OpUpdateMemberStatusValue (statusValue : option SV)
| OpblockingUpdateTTL
| OpregisterService
| OpderegisterService
| OpblockingStatusChange
| OpnotifyStatuses
| OpMonitorMemberStatusChanges
| OpMonitor_loop (fuel : nat)
| OpGetHealthStatus.

Definition exec (o : Op) : M unit :=
  match o with
  | OpRegisterMember c cn a n ks sv ser =>
    RegisterMember c cn a n ks sv ser ;; ret tt
  | OpDeregisterMember => DeregisterMember ;; ret tt
  | OpShutdown => Shutdown ;; ret tt
  | OpUpdateTTL => UpdateTTL
  | OpUpdateTTL_goroutine fuel => UpdateTTL_goroutine fuel ;; ret tt
  | OpUpdateMemberStatusValue sv => UpdateMemberStatusValue sv ;; ret tt
  | OpblockingUpdateTTL => blockingUpdateTTL ;; ret tt
  | OpregisterService => registerService ;; ret tt
  | OpderegisterService => deregisterService ;; ret tt
  | OpblockingStatusChange => blockingStatusChange
  | OpnotifyStatuses => notifyStatuses
  | OpMonitorMemberStatusChanges => MonitorMemberStatusChanges
  | OpMonitor_loop fuel => Monitor_loop fuel ;; ret tt
  | OpGetHealthStatus => GetHealthStatus ;; ret tt
  end.

Fixpoint run (ops : list Op) : M unit :=
  match ops with
  | [] => ret tt
  | o :: rest => exec o ;; run rest
  end.

(** The events a run added to the trace it started from. *)
Definition added (s s' : State) : list Event :=
  drop (length (trace s)) (trace s').

(** What [notifyStatuses] assembles for one entry of a health response. *)
Definition member_status (clusterName : string)
    (ser : cluster.MemberStatusValueSerializer SV) (v : api.ServiceEntry)
    : cluster.MemberStatus SV :=
  cluster.mkMemberStatus
    (Sprintf_slash clusterName (api.AgentService.Address (api.Service v))
       (api.AgentService.Port (api.Service v)))
    (api.AgentService.Address (api.Service v))
    (api.AgentService.Port (api.Service v))
    (api.AgentService.Tags (api.Service v))
    (bool_decide (0 < length (api.Checks v))%nat
     && String.eqb (AggregatedStatus (api.Checks v)) api.HealthPassing)
    (cluster.Deserialize ser
       (map_index (api.AgentService.Meta (api.Service v)) "StatusValue")).

(** The [knownKinds] left by the loop of [notifyStatuses]: the tags of the
    last entry whose member ID is [pid], if there is one. *)
Definition self_kinds (clusterName pid : string)
    (statuses : list api.ServiceEntry) (kinds : list string) : list string :=
  foldl (fun ks v =>
           if String.eqb
                (Sprintf_slash clusterName
                   (api.AgentService.Address (api.Service v))
                   (api.AgentService.Port (api.Service v))) pid
           then api.AgentService.Tags (api.Service v) else ks)
    kinds statuses.

(** What a run from [s] to [s'] may do to the two flags: neither is reset,
    the trace only grows, and [deregistered] is raised only by a run in
    which a [ServiceDeregister] call returned nil. *)
Definition flags_step (s s' : State) : Prop :=
  (shutdown (prov s) = true -> shutdown (prov s') = true)
  /\ (deregistered (prov s) = true -> deregistered (prov s') = true)
  /\ exists evs,
       trace s' = trace s ++ evs
       /\ (deregistered (prov s) = false -> deregistered (prov s') = true ->
           exists serviceID, EvServiceDeregister serviceID None ∈ evs).

Definition keeps_flags {A} (m : M A) : Prop :=
  forall s, flags_step s (final (m s)).

End Runs.

(** ** A scripted directory, for running the provider on concrete inputs *)
Module Scripted.

(** The directory answers registrations, deregistrations and renewals with
    fixed results, lists fixed local services, and answers the health
    queries one after the other from a script. *)
Record Directory := mkDirectory {
  register_result : option error;
  deregister_result : option error;
  updateTTL_result : option error;
  local_services : gmap string api.AgentService.t;
  health_script : list (error + list api.ServiceEntry * api.QueryMeta)
}.

Definition Health_Service (service tag : string) (passingOnly : bool)
    (q : api.QueryOptions) (d : Directory)
    : (error + list api.ServiceEntry * api.QueryMeta) * Directory :=
  match health_script d with
  | [] => (inl "Unexpected response code: 500", d)
  | r :: rest =>
    (r, mkDirectory (register_result d) (deregister_result d)
          (updateTTL_result d) (local_services d) rest)
  end.

Definition client : api.Client Directory :=
  api.mkClient Directory
    (fun _ d => (register_result d, d))
    (fun _ d => (deregister_result d, d))
    (fun _ _ _ d => (updateTTL_result d, d))
    (fun d => ((local_services d, None), d))
    Health_Service.

(** [AggregatedStatus] of the Consul client: maintenance, then critical,
    then warning, then passing; an unknown status gives the empty string. *)
Definition is_maintenance (checkID : string) : bool :=
  String.eqb checkID "_node_maintenance"
  || String.prefix "_service_maintenance:" checkID.

Fixpoint aggregate (c : api.HealthChecks)
    (passing warning critical maintenance : bool) : string :=
  match c with
  | [] =>
    if maintenance then "maintenance"
    else if critical then "critical"
    else if warning then "warning"
    else "passing"
  | check :: rest =>
    if is_maintenance (api.CheckID check)
    then aggregate rest passing warning critical true
    else if String.eqb (api.Status check) "passing"
    then aggregate rest true warning critical maintenance
    else if String.eqb (api.Status check) "warning"
    then aggregate rest passing true critical maintenance
    else if String.eqb (api.Status check) "critical"
    then aggregate rest passing warning true maintenance
    else ""
  end.

Definition AggregatedStatus (c : api.HealthChecks) : string :=
  aggregate c false false false false.

(** [Duration.String] on the whole numbers of seconds below one minute and
    on whole minutes below one hour, which covers the provider's settings;
    any other duration is printed as its count of nanoseconds. *)
Definition Duration_String (d : Duration) : string :=
  if bool_decide (d `mod` Second = 0 /\ 0 <= d < 60 * Second)%Z
  then itoa (d `div` Second) +:+ "s"
  else if bool_decide (d `mod` (60 * Second) = 0 /\ 0 <= d < 3600 * Second)%Z
  then itoa (d `div` (60 * Second)) +:+ "m0s"
  else itoa d +:+ "ns".

Definition env : Env :=
  mkEnv string string Directory client AggregatedStatus Duration_String.

(** A serializer whose status values are strings. *)
Definition serializer : cluster.MemberStatusValueSerializer string :=
  cluster.mkSerializer string
    (fun v => default "" v)
    (fun s => if String.eqb s "" then None else Some s).

(** The provider returned by [New]. *)
Definition fresh : @Provider env :=
  match @NewWithConfig env None with
  | inr p => p
  | inl _ =>
    mkProvider None false false "" "" "" 0%Z [] 0%Z 0%Z 0%Z 0%Z 0%Z 0%Z
      None None None
  end.

Definition entry (address : string) (port : Z) (tags : list string)
    (status : string) (checks : list string) : api.ServiceEntry :=
  api.mkServiceEntry
    (api.AgentService.mk ("mycluster@" +:+ address +:+ ":" +:+ itoa port)
       "mycluster" tags address port {[ "StatusValue" := status ]})
    (map (fun st => api.mkHealthCheck "service:x" st) checks).

(** A directory in which everything succeeds; the first health query shows
    this instance with kinds A and B, the second with kind A only. *)
Definition healthy : Directory :=
  mkDirectory None None None ∅
    [ inr ([entry "127.0.0.1" 8080%Z ["A"; "B"] "up" ["passing"]],
           api.mkQueryMeta 7%Z);
      inr ([entry "127.0.0.1" 8080%Z ["A"] "up" ["passing"];
            entry "127.0.0.1" 8081%Z ["B"] "" []],
           api.mkQueryMeta 9%Z) ].

Definition start (d : Directory) : @State env := @mkState env fresh d [].

(** The state after a successful join on [healthy]. *)
Definition joined : @State env :=
  final (@RegisterMember env (Some "actorsystem") "mycluster" "127.0.0.1" 8080%Z
           ["A"; "B"] (Some "up") (Some serializer) (start healthy)).

(** The same provider and trace, facing another directory. *)
Definition facing (d : Directory) (s : @State env) : @State env :=
  @mkState env (prov s) d (trace s).

(** The state after [Shutdown] on [joined]. *)
Definition left : @State env := final (@Shutdown env joined).

(** A directory that refuses every call. *)
Definition refusing : Directory :=
  mkDirectory (Some "connection refused") (Some "connection refused")
    (Some "connection refused") ∅ [].

(** Directories in which the TTL renewal fails: one that has lost the
    service, and one that still lists it. *)
Definition evicted : Directory :=
  mkDirectory None None (Some "check has no associated TTL") ∅ [].

Definition listed : Directory :=
  mkDirectory None None (Some "check has no associated TTL")
    {[ "mycluster@127.0.0.1:8080" :=
         api.AgentService.mk "mycluster@127.0.0.1:8080" "mycluster"
           ["A"; "B"] "127.0.0.1" 8080%Z ∅ ]}
    [].

End Scripted.

(** ** Frames: what a computation leaves alone

    [P] relates the provider before and after, [Q] holds of every event
    added to the trace, whether the computation returns or panics. *)
Section Frames.

Context `{Env}.

Variable P : Provider -> Provider -> Prop.
Variable Q : Event -> Prop.

Definition frame_step (s s' : State) : Prop :=
  P (prov s) (prov s')
  /\ exists evs, trace s' = trace s ++ evs /\ Forall Q evs.

Definition framed {A} (m : M A) : Prop :=
  forall s, frame_step s (final (m s)).

End Frames.

Section Footprints.

Context `{Env}.

(** The eight assignments that open [RegisterMember]. *)
Definition join_fields (c : option Cluster) (cn a : string) (n : Z)
    (kinds : list string) (sv : option SV)
    (ser : option (cluster.MemberStatusValueSerializer SV)) (p : Provider)
    : Provider :=
  set_statusValueSerializer ser
    (set_statusValue sv
       (set_knownKinds kinds
          (set_port n
             (set_address a
                (set_clusterName cn
                   (set_id (Sprintf_at cn a n) (set_cluster c p))))))).

(** [p'] is [p] up to the last heartbeat error and the wait group. *)
Definition heartbeat_frame (p p' : Provider) : Prop :=
  set_clusterError (clusterError p)
    (set_updateTTLWaitGroup (updateTTLWaitGroup p) p') = p.

(** [p'] is [p] up to the watch index and the cached kinds. *)
Definition watch_frame (p p' : Provider) : Prop :=
  set_index (index p) (set_knownKinds (knownKinds p) p') = p.

(** [p'] has the four durations of [p]. *)
Definition same_settings (p p' : Provider) : Prop :=
  ttl p' = ttl p
  /\ refreshTTL p' = refreshTTL p
  /\ deregisterCritical p' = deregisterCritical p
  /\ blockingWaitTime p' = blockingWaitTime p.

Definition heartbeat_event (ev : Event) : Prop :=
  match ev with
  | EvUpdateTTL _ _ _ _ | EvServices _ | EvServiceRegister _ _
  | EvSleep _ | EvLog _ => True
  | _ => False
  end.

Definition watch_event (ev : Event) : Prop :=
  match ev with
  | EvHealthService _ _ _ _ _ | EvLog _ | EvPublish _ _ => True
  | _ => False
  end.

Definition is_renewal (ev : Event) : bool :=
  match ev with EvUpdateTTL _ _ _ _ => true | _ => false end.

Definition is_health_query (ev : Event) : bool :=
  match ev with EvHealthService _ _ _ _ _ => true | _ => false end.

Definition is_deregister_call (ev : Event) : bool :=
  match ev with EvServiceDeregister _ _ => true | _ => false end.

Definition is_directory_call (ev : Event) : bool :=
  match ev with
  | EvServiceRegister _ _ | EvServiceDeregister _ _ | EvUpdateTTL _ _ _ _
  | EvServices _ | EvHealthService _ _ _ _ _ => true
  | _ => false
  end.

End Footprints.

(** More scripted directories and states. *)
Module Cases.

(** Registration and renewal succeed, every health query fails. *)
Definition blind : Scripted.Directory :=
  Scripted.mkDirectory None None None ∅ [].

(** A directory whose health response holds one entry without meta data. *)
Definition unlabelled : Scripted.Directory :=
  Scripted.mkDirectory None None None ∅
    [ inr ([api.mkServiceEntry
              (api.AgentService.mk "other" "mycluster" [] "10.0.0.9" 80%Z ∅)
              []],
           api.mkQueryMeta 11%Z) ].

End Cases.

(** * Properties *)

(** ** How the monad computes *)

(** Call-by-value evaluation of the monad, of the assignments to fields
    and of the projections; every other constant is left alone. *)
Ltac go_cbv :=
  cbv beta iota zeta delta
    [bind get modify emit ret call deref panic
     set_cluster set_deregistered set_shutdown set_id set_clusterName
     set_address set_port set_knownKinds set_index set_updateTTLWaitGroup
     set_statusValue set_statusValueSerializer set_clusterError
     prov world trace fst snd final returned negb
     cluster deregistered shutdown id clusterName address port knownKinds
     index ttl refreshTTL updateTTLWaitGroup deregisterCritical
     blockingWaitTime statusValue statusValueSerializer clusterError] in *.

(** Replaces a directory call by its result: the one a hypothesis gives,
    or else a fresh pair of a result and a directory. *)
Ltac call_result :=
  match goal with
  | H : api.Agent_ServiceRegister _ _ _ = _ |- _ => rewrite H
  | H : api.Agent_ServiceDeregister _ _ _ = _ |- _ => rewrite H
  | H : api.Agent_UpdateTTL _ _ _ _ _ = _ |- _ => rewrite H
  | H : api.Agent_Services _ _ = _ |- _ => rewrite H
  | H : api.Health_Service _ _ _ _ _ _ = _ |- _ => rewrite H
  | |- context [api.Agent_ServiceRegister ?c ?a ?w] =>
    destruct (api.Agent_ServiceRegister c a w) as [? ?] eqn:?
  | |- context [api.Agent_ServiceDeregister ?c ?a ?w] =>
    destruct (api.Agent_ServiceDeregister c a w) as [? ?] eqn:?
  | |- context [api.Agent_UpdateTTL ?c ?a ?b ?d ?w] =>
    destruct (api.Agent_UpdateTTL c a b d w) as [? ?] eqn:?
  | |- context [api.Agent_Services ?c ?w] =>
    destruct (api.Agent_Services c w) as [[? ?] ?] eqn:?
  | |- context [api.Health_Service ?c ?a ?b ?d ?q ?w] =>
    destruct (api.Health_Service c a b d q w) as [[?|[? ?]] ?] eqn:?
  end.

(** Runs the straight-line part of a provider function. *)
Ltac run_go := repeat first [ progress go_cbv | call_result ].

(** Opens a state into its fields, so that the tests on them compute. *)
Ltac open_state s :=
  let p := fresh "p" in
  destruct s as [p ? ?]; destruct p; go_cbv; simplify_eq.

Section Properties.

Context `{Env}.

Implicit Types (s : State) (p : Provider) (e : error).

(** *** UpdateMemberStatusValue *)

(** C4. [UpdateMemberStatusValue nil] returns nil and makes no directory
    call; with a status and the shutdown flag set it returns
    [ProviderShuttingDownError] and makes no directory call; with a status,
    the flag clear (and a serializer stored, as after a join) it makes one
    [ServiceRegister] call carrying the whole registration: ID, name, tags,
    address, port, serialized status and TTL check. *)
Theorem UpdateMemberStatusValue_cases s :
  UpdateMemberStatusValue None s
    = Ret None (mkState (set_statusValue None (prov s)) (world s) (trace s))
  /\ (forall v, shutdown (prov s) = true ->
        UpdateMemberStatusValue (Some v) s
        = Ret (Some ProviderShuttingDownError)
            (mkState (set_statusValue (Some v) (prov s)) (world s) (trace s)))
  /\ (forall v ser, shutdown (prov s) = false ->
        statusValueSerializer (prov s) = Some ser ->
        let reg :=
          api.AgentServiceRegistration.mk
            (id (prov s)) (clusterName (prov s)) (knownKinds (prov s))
            (address (prov s)) (port (prov s))
            {[ "StatusValue" := cluster.Serialize ser (Some v) ]}
            (api.mkAgentServiceCheck
               (Duration_String (deregisterCritical (prov s)))
               (Duration_String (ttl (prov s)))) in
        let r := api.Agent_ServiceRegister client reg (world s) in
        UpdateMemberStatusValue (Some v) s
        = Ret r.1
            (mkState (set_statusValue (Some v) (prov s)) r.2
               (trace s ++ [EvServiceRegister reg r.1]))).
Proof.
  split; [reflexivity | split].
  - intros v Hsd. open_state s. reflexivity.
  - intros v ser Hsd Hser reg r. subst r reg. open_state s.
    unfold UpdateMemberStatusValue, registerService, registration. run_go.
    reflexivity.
Qed.

(** C10. The status passed to [UpdateMemberStatusValue] is stored before
    the nil test and the shutdown test: whatever the call does afterwards,
    the [statusValue] field holds the argument.  So a call rejected with
    [ProviderShuttingDownError] has changed the field all the same, and a
    nil argument clears the status that a later registration serializes. *)
Theorem UpdateMemberStatusValue_stores_first s sv :
  let r := UpdateMemberStatusValue sv s in
  statusValue (prov (final r)) = sv
  /\ (forall v, sv = Some v -> shutdown (prov s) = true ->
        returned r = Some (Some ProviderShuttingDownError))
  /\ (sv = None ->
        returned r = Some None
        /\ forall ser, statusValueSerializer (prov s) = Some ser ->
             exists reg err,
               added (final r) (final (registerService (final r)))
               = [EvServiceRegister reg err]
               /\ api.AgentServiceRegistration.Meta reg
                  = {[ "StatusValue" := cluster.Serialize ser None ]}).
Proof.
  intros r. subst r. split; [|split].
  - open_state s. unfold UpdateMemberStatusValue. run_go.
    destruct sv as [v|]; [|reflexivity].
    destruct shutdown0; [reflexivity|].
    unfold registerService. run_go.
    destruct statusValueSerializer0; run_go; reflexivity.
  - intros v -> Hsd. open_state s. reflexivity.
  - intros ->. split; [reflexivity|].
    intros ser Hser. open_state s.
    unfold UpdateMemberStatusValue, registerService, added. run_go.
    eexists _, _. rewrite drop_app_length. split; reflexivity.
Qed.

(** *** RegisterMember *)

(** C9. When the directory refuses the registration made by
    [RegisterMember], the call returns that error at once: the only thing
    it has done to the outside is the [ServiceRegister] call, so there was
    no TTL renewal, no health query, no publication and no heartbeat
    goroutine. *)
Theorem RegisterMember_fails_fast s c cn a n kinds sv ser e w1 :
  let p1 :=
    set_statusValueSerializer (Some ser) (set_statusValue sv
      (set_knownKinds kinds (set_port n (set_address a (set_clusterName cn
        (set_id (Sprintf_at cn a n) (set_cluster c (prov s)))))))) in
  api.Agent_ServiceRegister client (registration p1 ser) (world s)
    = (Some e, w1) ->
  RegisterMember c cn a n kinds sv (Some ser) s
  = Ret (Some e)
      (mkState p1 w1
         (trace s ++ [EvServiceRegister (registration p1 ser) (Some e)])).
Proof.
  intros p1 Hreg. subst p1. open_state s.
  unfold RegisterMember, registerService, registration in *. run_go.
  reflexivity.
Qed.

(** *** Shutdown *)

(** C5. A call of [Shutdown] that finds the flag set returns nil and
    leaves the provider, the directory and the trace as they are.  Every
    call returns with the flag set, so a second call right after a first is
    such a call.  The first call returns nil whenever the deregistration it
    makes succeeds. *)
Theorem Shutdown_idempotent s :
  (shutdown (prov s) = true -> Shutdown s = Ret None s)
  /\ (exists r s1,
        Shutdown s = Ret r s1
        /\ shutdown (prov s1) = true
        /\ Shutdown s1 = Ret None s1)
  /\ ((api.Agent_ServiceDeregister client (id (prov s)) (world s)).1 = None ->
      returned (Shutdown s) = Some None).
Proof.
  split; [|split].
  - intros Hsd. open_state s. reflexivity.
  - open_state s. unfold Shutdown, DeregisterMember, deregisterService.
    destruct shutdown0; run_go; [eauto|].
    destruct deregistered0; run_go; [eauto|].
    match goal with o : option error |- _ => destruct o end;
      run_go; eauto.
  - intros Hd. open_state s.
    unfold Shutdown, DeregisterMember, deregisterService.
    destruct shutdown0; run_go; [reflexivity|].
    destruct deregistered0; run_go; [reflexivity|].
    simpl in Hd. subst. reflexivity.
Qed.

(** *** The topology watch *)

(** C7. When the blocking health query fails, [notifyStatuses] returns
    normally (it has no error result) with the provider unchanged, so the
    index is not advanced; besides the query it only logs, so nothing is
    published; and the watch loop goes on to its next pass. *)
Theorem notifyStatuses_query_error s e w1 :
  let q := api.mkQueryOptions (index (prov s)) (blockingWaitTime (prov s)) in
  api.Health_Service client (clusterName (prov s)) "" false q (world s)
    = (inl e, w1) ->
  let s' :=
    mkState (prov s) w1
      (trace s ++ [EvHealthService (clusterName (prov s)) "" false q (inl e);
                   EvLog ("Error " +:+ e)]) in
  notifyStatuses s = Ret tt s'
  /\ index (prov s') = index (prov s)
  /\ filter (fun ev => is_publish ev = true) (added s s') = []
  /\ (forall fuel, shutdown (prov s) = false ->
        Monitor_loop (S fuel) s = Monitor_loop fuel s').
Proof.
  intros q Hq s'. subst q s'.
  assert (Hn : notifyStatuses s = Ret tt
     (mkState (prov s) w1
        (trace s ++ [EvHealthService (clusterName (prov s)) "" false
                       (api.mkQueryOptions (index (prov s))
                          (blockingWaitTime (prov s))) (inl e);
                     EvLog ("Error " +:+ e)]))).
  { open_state s. unfold notifyStatuses. run_go.
    rewrite <- app_assoc. reflexivity. }
  split; [exact Hn|]. split; [reflexivity|]. split.
  - unfold added. simpl. rewrite drop_app_length. reflexivity.
  - intros fuel Hsd. simpl. unfold bind at 1. unfold get at 1.
    simpl. rewrite Hsd. unfold bind at 1. rewrite Hn. reflexivity.
Qed.

(** *** The shutdown and deregistered flags *)

Lemma flags_step_refl s : flags_step s s.
Proof.
  repeat split; try done. exists []. rewrite app_nil_r.
  split; [done|]. congruence.
Qed.

Lemma flags_step_trans s1 s2 s3 :
  flags_step s1 s2 -> flags_step s2 s3 -> flags_step s1 s3.
Proof.
  intros (Hs1 & Hd1 & evs1 & Ht1 & Hc1) (Hs2 & Hd2 & evs2 & Ht2 & Hc2).
  repeat split; [tauto | tauto |].
  exists (evs1 ++ evs2). split.
  - rewrite Ht2, Ht1, app_assoc. reflexivity.
  - intros Hf Ht. destruct (deregistered (prov s2)) eqn:Hmid.
    + destruct (Hc1 Hf eq_refl) as [sid Hin]. exists sid.
      apply elem_of_app. left. exact Hin.
    + destruct (Hc2 eq_refl Ht) as [sid Hin]. exists sid.
      apply elem_of_app. right. exact Hin.
Qed.

Lemma keeps_ret {A} (a : A) : keeps_flags (ret a).
Proof. intros s. apply flags_step_refl. Qed.

Lemma keeps_panic {A} : keeps_flags (@panic _ A).
Proof. intros s. apply flags_step_refl. Qed.

Lemma keeps_get : keeps_flags get.
Proof. intros s. apply flags_step_refl. Qed.

Lemma keeps_deref {A} (o : option A) : keeps_flags (deref o).
Proof. destruct o; [apply keeps_ret | apply keeps_panic]. Qed.

Lemma keeps_bind {A B} (m : M A) (k : A -> M B) :
  keeps_flags m -> (forall a, keeps_flags (k a)) -> keeps_flags (bind m k).
Proof.
  intros Hm Hk s. unfold bind. specialize (Hm s).
  destruct (m s) as [a s'|s']; simpl in *; [|exact Hm].
  eapply flags_step_trans; [exact Hm | apply Hk].
Qed.

Lemma keeps_emit ev : keeps_flags (emit ev).
Proof.
  intros s. repeat split; try done. exists [ev]. split; [done|].
  simpl. congruence.
Qed.

Lemma keeps_call {A} (f : W -> A * W) (ev : A -> Event) :
  keeps_flags (call f ev).
Proof.
  intros s. unfold call. destruct (f (world s)) as [a w].
  repeat split; try done. exists [ev a]. split; [done|].
  simpl. congruence.
Qed.

(** An assignment that leaves [deregistered] alone and does not clear
    [shutdown]. *)
Lemma keeps_modify (f : Provider -> Provider) :
  (forall p, shutdown p = true -> shutdown (f p) = true) ->
  (forall p, deregistered (f p) = deregistered p) ->
  keeps_flags (modify f).
Proof.
  intros Hs Hd s. repeat split; simpl.
  - apply Hs.
  - rewrite Hd. done.
  - exists []. rewrite app_nil_r. split; [done|]. rewrite Hd. congruence.
Qed.

Ltac keeps :=
  repeat first
    [ solve [auto]
    | apply keeps_ret | apply keeps_panic | apply keeps_get
    | apply keeps_deref | apply keeps_emit | apply keeps_call
    | apply keeps_modify; [by intros [] | by intros []]
    | apply keeps_bind; [|intros ?]
    | match goal with
      | |- keeps_flags (match ?x with _ => _ end) => destruct x
      | |- keeps_flags (let _ := _ in _) => cbv zeta
      end ].

Lemma keeps_registerService : keeps_flags registerService.
Proof. unfold registerService. keeps. Qed.

Lemma keeps_deregisterService : keeps_flags deregisterService.
Proof. unfold deregisterService. keeps. Qed.

Lemma keeps_blockingUpdateTTL : keeps_flags blockingUpdateTTL.
Proof. unfold blockingUpdateTTL. keeps. Qed.

Lemma keeps_notify_range statuses :
  forall i res, keeps_flags (notify_range i statuses res).
Proof.
  induction statuses as [|v rest IH]; intros i res; cbn [notify_range];
    [keeps|].
  apply keeps_bind; [unfold notify_entry; keeps | intros ?; apply IH].
Qed.

Lemma keeps_notifyStatuses : keeps_flags notifyStatuses.
Proof.
  unfold notifyStatuses. pose proof keeps_notify_range. keeps.
Qed.

Lemma keeps_range_services ids : keeps_flags (range_services ids).
Proof. induction ids as [|i rest IH]; cbn [range_services]; keeps. Qed.

Lemma keeps_UpdateTTL_body : keeps_flags UpdateTTL_body.
Proof.
  unfold UpdateTTL_body, UpdateTTL_reregister.
  pose proof keeps_blockingUpdateTTL. pose proof keeps_registerService.
  pose proof keeps_range_services. keeps.
Qed.

Lemma keeps_UpdateTTL_loop fuel : keeps_flags (UpdateTTL_loop fuel).
Proof.
  pose proof keeps_UpdateTTL_body.
  induction fuel as [|n IH]; cbn [UpdateTTL_loop]; keeps.
Qed.

Lemma keeps_Monitor_loop fuel : keeps_flags (Monitor_loop fuel).
Proof.
  pose proof keeps_notifyStatuses.
  induction fuel as [|n IH]; cbn [Monitor_loop]; keeps.
Qed.

(** [DeregisterMember] is where [deregistered] is raised: after a
    [ServiceDeregister] call that returned nil. *)
Lemma keeps_DeregisterMember : keeps_flags DeregisterMember.
Proof.
  intros s. unfold DeregisterMember, deregisterService, flags_step.
  open_state s.
  destruct (api.Agent_ServiceDeregister client id0 world0)
    as [[e|] w1] eqn:Hd; run_go.
  - repeat split; try done.
    exists [EvServiceDeregister id0 (Some e); EvPrintln e].
    rewrite <- app_assoc. split; [done|]. congruence.
  - repeat split; try done.
    exists [EvServiceDeregister id0 None].
    split; [done|]. intros _ _. exists id0.
    apply list_elem_of_singleton. reflexivity.
Qed.

Lemma keeps_Shutdown : keeps_flags Shutdown.
Proof. unfold Shutdown. pose proof keeps_DeregisterMember. keeps. Qed.

Lemma keeps_exec o : keeps_flags (exec o).
Proof.
  pose proof keeps_registerService. pose proof keeps_deregisterService.
  pose proof keeps_blockingUpdateTTL. pose proof keeps_notifyStatuses.
  pose proof keeps_DeregisterMember. pose proof keeps_Shutdown.
  pose proof keeps_UpdateTTL_loop. pose proof keeps_Monitor_loop.
  destruct o; simpl;
    unfold RegisterMember, UpdateTTL_goroutine, UpdateMemberStatusValue,
      blockingStatusChange, UpdateTTL, MonitorMemberStatusChanges,
      GetHealthStatus;
    keeps.
Qed.

Lemma keeps_run ops : keeps_flags (run ops).
Proof.
  induction ops as [|o rest IH]; simpl; [apply keeps_ret|].
  apply keeps_bind; [apply keeps_exec | intros _; exact IH].
Qed.

(** C6. Over any sequence of operations of the provider, a [shutdown] flag
    that is set stays set and a [deregistered] flag that is set stays set;
    [deregistered] goes from false to true only in a run in which a
    [ServiceDeregister] call returned nil; and when the call made by
    [DeregisterMember] fails, the error is returned with the provider, and
    so the flag, unchanged. *)
Theorem flags_monotonic (ops : list Op) s :
  let s' := final (run ops s) in
  (shutdown (prov s) = true -> shutdown (prov s') = true)
  /\ (deregistered (prov s) = true -> deregistered (prov s') = true)
  /\ (deregistered (prov s) = false -> deregistered (prov s') = true ->
      exists serviceID, EvServiceDeregister serviceID None ∈ added s s')
  /\ (forall e w1,
        api.Agent_ServiceDeregister client (id (prov s)) (world s)
          = (Some e, w1) ->
        DeregisterMember s
        = Ret (Some e)
            (mkState (prov s) w1
               (trace s ++ [EvServiceDeregister (id (prov s)) (Some e);
                            EvPrintln e]))).
Proof.
  intros s'. subst s'.
  destruct (keeps_run ops s) as (Hs & Hd & evs & Ht & Hc).
  repeat split; [exact Hs | exact Hd | |].
  - intros Hf Hr. unfold added. rewrite Ht, drop_app_length. eauto.
  - intros e w1 Hcall. unfold DeregisterMember, deregisterService.
    open_state s. run_go. rewrite <- app_assoc. reflexivity.
Qed.

(** *** The heartbeat *)

Lemma range_services_found ids s :
  id (prov s) ∈ ids ->
  range_services ids s
  = Ret true
      (mkState (prov s) (world s)
         (trace s ++
            [EvLog "[CLUSTER] [CONSUL] Service found in consul -> doing nothing";
             EvSleep (refreshTTL (prov s))])).
Proof.
  induction ids as [|i rest IH]; intros Hin.
  - by apply elem_of_nil in Hin.
  - simpl. unfold bind at 1, get at 1.
    destruct (String.eqb_spec i (id (prov s))) as [->|Hne].
    + run_go. rewrite <- app_assoc. reflexivity.
    + apply IH. apply elem_of_cons in Hin as [Heq|Hin]; [congruence|done].
Qed.

Lemma range_services_absent ids s :
  id (prov s) ∉ ids -> range_services ids s = Ret false s.
Proof.
  induction ids as [|i rest IH]; intros Hnin; [reflexivity|].
  simpl. unfold bind at 1, get at 1.
  apply not_elem_of_cons in Hnin as [Hne Hnin].
  destruct (String.eqb_spec i (id (prov s))) as [Heq|_]; [congruence|].
  apply IH, Hnin.
Qed.

(** The keys visited by [for id := range services]. *)
Lemma elem_of_keys (services : gmap string api.AgentService.t) k :
  k ∈ (map_to_list services).*1 <-> is_Some (services !! k).
Proof.
  rewrite list_elem_of_fmap. split.
  - intros ([k' x] & -> & Hin). apply elem_of_map_to_list in Hin. eauto.
  - intros [x Hx]. exists (k, x). split; [done|].
    by apply elem_of_map_to_list.
Qed.

(** A pass whose renewal fails gets as far as the list of local services. *)
Lemma UpdateTTL_body_renewal_failed s e w1 services serr w2 :
  let checkID := "service:" +:+ id (prov s) in
  api.Agent_UpdateTTL client checkID "" api.HealthPassing (world s)
    = (Some e, w1) ->
  api.Agent_Services client w1 = ((services, serr), w2) ->
  UpdateTTL_body s
  = (found <- range_services (map_to_list services).*1 ;;
     if found then ret tt else UpdateTTL_reregister)
      (mkState (set_clusterError (Some e) (prov s)) w2
         (trace s ++
            [EvUpdateTTL checkID "" api.HealthPassing (Some e);
             EvLog "[CLUSTER] [CONSUL] Failure refreshing service TTL. Trying to reregister service if not in consul.";
             EvServices (services, serr)])).
Proof.
  intros checkID Httl Hsvc. subst checkID. open_state s.
  unfold UpdateTTL_body, blockingUpdateTTL. run_go.
  rewrite <- !app_assoc. reflexivity.
Qed.

(** The re-registration makes one [ServiceRegister] call, then logs and
    sleeps, whatever the call returned. *)
Lemma UpdateTTL_reregister_spec s ser :
  statusValueSerializer (prov s) = Some ser ->
  let reg := registration (prov s) ser in
  let r := api.Agent_ServiceRegister client reg (world s) in
  exists msg,
    UpdateTTL_reregister s
    = Ret tt
        (mkState (prov s) r.2
           (trace s ++ [EvServiceRegister reg r.1; EvLog msg;
                        EvSleep (refreshTTL (prov s))])).
Proof.
  intros Hser reg r. subst r reg. open_state s.
  unfold UpdateTTL_reregister, registerService, registration. run_go.
  match goal with o : option error |- _ => destruct o end;
    run_go; eexists; rewrite <- !app_assoc; reflexivity.
Qed.

(** C2. A pass of the heartbeat loop whose TTL renewal fails lists the
    local services.  If the provider's ID is among them, the pass makes no
    [ServiceRegister] call: it logs and sleeps.  If it is not, the pass
    makes exactly one [ServiceRegister] call, then logs and sleeps, whatever
    that call returned.  In both cases the loop goes on with its next pass. *)
Theorem heartbeat_repair s e w1 services serr w2 :
  let checkID := "service:" +:+ id (prov s) in
  api.Agent_UpdateTTL client checkID "" api.HealthPassing (world s)
    = (Some e, w1) ->
  api.Agent_Services client w1 = ((services, serr), w2) ->
  let p1 := set_clusterError (Some e) (prov s) in
  let before :=
    trace s ++
    [EvUpdateTTL checkID "" api.HealthPassing (Some e);
     EvLog "[CLUSTER] [CONSUL] Failure refreshing service TTL. Trying to reregister service if not in consul.";
     EvServices (services, serr)] in
  (is_Some (services !! id (prov s)) ->
     UpdateTTL_body s
     = Ret tt
         (mkState p1 w2
            (before ++
               [EvLog "[CLUSTER] [CONSUL] Service found in consul -> doing nothing";
                EvSleep (refreshTTL (prov s))])))
  /\ (services !! id (prov s) = None ->
      forall ser, statusValueSerializer (prov s) = Some ser ->
        let reg := registration p1 ser in
        let r := api.Agent_ServiceRegister client reg w2 in
        exists msg,
          UpdateTTL_body s
          = Ret tt
              (mkState p1 r.2
                 (before ++
                    [EvServiceRegister reg r.1; EvLog msg;
                     EvSleep (refreshTTL (prov s))])))
  /\ (forall fuel s',
        shutdown (prov s) = false ->
        UpdateTTL_body s = Ret tt s' ->
        UpdateTTL_loop (S fuel) s = UpdateTTL_loop fuel s').
Proof.
  intros checkID Httl Hsvc p1 before. subst checkID p1 before.
  split; [|split].
  - intros Hin. apply elem_of_keys in Hin.
    rewrite (UpdateTTL_body_renewal_failed s e w1 services serr w2 Httl Hsvc).
    unfold bind at 1. rewrite range_services_found by exact Hin.
    by destruct s as [[] ? ?].
  - intros Hnone ser Hser reg r.
    assert (Hnin : id (prov s) ∉ (map_to_list services).*1).
    { rewrite elem_of_keys, Hnone. by intros [? ?]. }
    rewrite (UpdateTTL_body_renewal_failed s e w1 services serr w2 Httl Hsvc).
    unfold bind at 1. rewrite range_services_absent by exact Hnin.
    match goal with |- context [UpdateTTL_reregister ?s1] =>
      destruct (UpdateTTL_reregister_spec s1 ser) as [msg ->];
        [by destruct s as [[] ? ?]|]
    end.
    exists msg. by destruct s as [[] ? ?].
  - intros fuel s' Hsd Hbody. cbn [UpdateTTL_loop].
    unfold bind at 1, get at 1. rewrite Hsd.
    unfold bind at 1. rewrite Hbody. reflexivity.
Qed.

(** *** Assembling and publishing the topology *)

Lemma set_knownKinds_same p : set_knownKinds (knownKinds p) p = p.
Proof. by destruct p. Qed.

Lemma set_knownKinds_twice ks ks' p :
  set_knownKinds ks (set_knownKinds ks' p) = set_knownKinds ks p.
Proof. by destruct p. Qed.

(** The loop fills the slots from [i] on, one per entry and in order, and
    leaves the slots before [i] alone. *)
Lemma notify_range_spec ser statuses :
  forall s (done : cluster.TopologyEvent SV),
    statusValueSerializer (prov s) = Some ser ->
    notify_range (length done) statuses
      (done ++ replicate (length statuses) None) s
    = Ret (done ++ ((fun v => Some (member_status (clusterName (prov s)) ser v))
                      <$> statuses))
        (mkState
           (set_knownKinds
              (self_kinds (clusterName (prov s)) (id (prov s)) statuses
                 (knownKinds (prov s)))
              (prov s))
           (world s) (trace s)).
Proof.
  induction statuses as [|v rest IH]; intros s done Hser.
  - simpl. rewrite set_knownKinds_same. by destruct s.
  - cbn [notify_range length replicate self_kinds foldl]. rewrite fmap_cons.
    unfold bind at 1. unfold notify_entry.
    unfold bind at 1, get at 1. unfold bind at 1. rewrite Hser.
    unfold deref, ret at 1. unfold bind at 1.
    replace (<[length done:=_]> (done ++ None :: replicate (length rest) None))
      with ((done ++ [Some (member_status (clusterName (prov s)) ser v)])
              ++ replicate (length rest) None :> cluster.TopologyEvent SV).
    2:{ rewrite <- app_assoc.
        rewrite (insert_app_r_alt done) by lia.
        by rewrite Nat.sub_diag. }
    replace (S (length done))
      with (length (done ++ [Some (member_status (clusterName (prov s)) ser v)]))
      by (rewrite length_app; simpl; lia).
    destruct (String.eqb _ (id (prov s))) eqn:Hself.
    + unfold modify, ret. rewrite IH by (by destruct s as [[] ? ?]).
      rewrite <- app_assoc. destruct s as [p w t]. simpl.
      rewrite set_knownKinds_twice. by destruct p.
    + unfold ret. rewrite IH by exact Hser. rewrite <- app_assoc.
      reflexivity.
Qed.

(** With a serializer and a cluster stored, a successful health query ends
    in one publication, of one member per entry of the response. *)
Lemma notifyStatuses_ok s statuses meta w1 ser c :
  let q := api.mkQueryOptions (index (prov s)) (blockingWaitTime (prov s)) in
  api.Health_Service client (clusterName (prov s)) "" false q (world s)
    = (inr (statuses, meta), w1) ->
  statusValueSerializer (prov s) = Some ser ->
  cluster (prov s) = Some c ->
  notifyStatuses s
  = Ret tt
      (mkState
         (set_knownKinds
            (self_kinds (clusterName (prov s)) (id (prov s)) statuses
               (knownKinds (prov s)))
            (set_index (api.LastIndex meta) (prov s)))
         w1
         (trace s ++
            [EvHealthService (clusterName (prov s)) "" false q
               (inr (statuses, meta));
             EvPublish c
               ((fun v => Some (member_status (clusterName (prov s)) ser v))
                  <$> statuses)])).
Proof.
  intros q Hq Hser Hc. subst q. unfold notifyStatuses.
  unfold bind at 1, get at 1. unfold bind at 1, call at 1. rewrite Hq.
  unfold bind at 1, modify at 1. unfold bind at 1.
  rewrite (notify_range_spec ser statuses _ []) by (by destruct s as [[] ? ?]).
  unfold bind at 1, get at 1. unfold bind at 1.
  destruct s as [p w t]. destruct p. simpl in *. subst.
  unfold ret, emit. simpl. rewrite <- app_assoc. reflexivity.
Qed.

(** After a successful query, [notifyStatuses] goes on from the state with
    the new index. *)
Lemma notifyStatuses_inr s statuses meta w1 :
  let q := api.mkQueryOptions (index (prov s)) (blockingWaitTime (prov s)) in
  api.Health_Service client (clusterName (prov s)) "" false q (world s)
    = (inr (statuses, meta), w1) ->
  notifyStatuses s
  = (res <- notify_range 0 statuses (replicate (length statuses) None) ;;
     p <- get ;;
     c <- deref (cluster p) ;;
     emit (EvPublish c res))
      (mkState (set_index (api.LastIndex meta) (prov s)) w1
         (trace s ++ [EvHealthService (clusterName (prov s)) "" false q
                        (inr (statuses, meta))])).
Proof.
  intros q Hq. subst q. unfold notifyStatuses.
  unfold bind at 1, get at 1. unfold bind at 1, call at 1. rewrite Hq.
  reflexivity.
Qed.

(** Whatever is stored in the provider, a successful query is followed by
    at most one publication: the one of [notifyStatuses_ok], or that of an
    empty response by a provider without a serializer. *)
Lemma notifyStatuses_publications s statuses meta w1 :
  let q := api.mkQueryOptions (index (prov s)) (blockingWaitTime (prov s)) in
  api.Health_Service client (clusterName (prov s)) "" false q (world s)
    = (inr (statuses, meta), w1) ->
  exists pubs,
    added s (final (notifyStatuses s))
    = EvHealthService (clusterName (prov s)) "" false q (inr (statuses, meta))
      :: pubs
    /\ (pubs = []
        \/ exists c,
             pubs = [EvPublish c []] /\ statuses = []
             \/ exists ser,
                  statusValueSerializer (prov s) = Some ser
                  /\ pubs = [EvPublish c
                               ((fun v => Some (member_status
                                                  (clusterName (prov s)) ser v))
                                  <$> statuses)]).
Proof.
  intros q Hq.
  destruct (statusValueSerializer (prov s)) as [ser|] eqn:Hser.
  - destruct (cluster (prov s)) as [c|] eqn:Hc.
    + rewrite (notifyStatuses_ok s statuses meta w1 ser c Hq Hser Hc).
      unfold added. cbn [final trace]. rewrite drop_app_length.
      eexists. split; [reflexivity|]. right. exists c. right. eauto.
    + rewrite (notifyStatuses_inr s statuses meta w1 Hq).
      unfold bind at 1.
      rewrite (notify_range_spec ser statuses _ [])
        by (by destruct s as [[] ? ?]).
      exists []. split; [|by left].
      open_state s. unfold added. run_go. by rewrite drop_app_length.
  - rewrite (notifyStatuses_inr s statuses meta w1 Hq).
    destruct statuses as [|v rest].
    + destruct (cluster (prov s)) as [c|] eqn:Hc; open_state s;
        unfold added; cbn [notify_range length replicate]; run_go.
      * exists [EvPublish c []]. rewrite <- app_assoc, drop_app_length.
        split; [reflexivity|]. right. exists c. by left.
      * exists []. rewrite drop_app_length. split; [reflexivity|by left].
    + exists []. split; [|by left]. open_state s.
      unfold added, notify_entry; cbn [notify_range length replicate].
      unfold notify_entry. run_go. by rewrite drop_app_length.
Qed.

(** C8. Every topology published by [notifyStatuses] after a successful
    health query is the only publication of that call (one batch), has
    exactly one member per entry of that query's response, in the same
    order, each built from its entry alone, so nothing comes from an
    earlier snapshot.  A provider that has joined (serializer and cluster
    stored) does publish it. *)
Theorem snapshot_exhaustive s statuses meta w1 :
  let q := api.mkQueryOptions (index (prov s)) (blockingWaitTime (prov s)) in
  api.Health_Service client (clusterName (prov s)) "" false q (world s)
    = (inr (statuses, meta), w1) ->
  let s' := final (notifyStatuses s) in
  (forall c evt,
     EvPublish c evt ∈ added s s' ->
     filter (fun ev => is_publish ev = true) (added s s') = [EvPublish c evt]
     /\ length evt = length statuses
     /\ forall i v,
          statuses !! i = Some v ->
          exists ser,
            statusValueSerializer (prov s) = Some ser
            /\ evt !! i
               = Some (Some (member_status (clusterName (prov s)) ser v)))
  /\ (forall ser c,
        statusValueSerializer (prov s) = Some ser ->
        cluster (prov s) = Some c ->
        added s s'
        = [EvHealthService (clusterName (prov s)) "" false q
             (inr (statuses, meta));
           EvPublish c
             ((fun v => Some (member_status (clusterName (prov s)) ser v))
                <$> statuses)]).
Proof.
  intros q Hq s'. subst s'. split.
  - intros c evt Hin.
    destruct (notifyStatuses_publications s statuses meta w1 Hq)
      as (pubs & Hadd & Hpubs).
    fold q in Hadd. rewrite Hadd in Hin |- *.
    apply elem_of_cons in Hin as [Hin|Hin]; [discriminate|].
    destruct Hpubs as [->|[c' [[-> ->]|(ser & Hser & ->)]]].
    + by apply elem_of_nil in Hin.
    + apply list_elem_of_singleton in Hin. simplify_eq.
      repeat split; done.
    + apply list_elem_of_singleton in Hin. simplify_eq.
      split; [reflexivity|]. split; [by rewrite length_fmap|].
      intros i v Hi. exists ser. split; [done|].
      by rewrite list_lookup_fmap, Hi.
  - intros ser c Hser Hc.
    rewrite (notifyStatuses_ok s statuses meta w1 ser c Hq Hser Hc).
    unfold added. cbn [final trace]. by rewrite drop_app_length.
Qed.

(** C3. In the topology published for a health response, the member built
    from an entry is alive exactly when the entry has at least one check and
    the aggregated status of its checks is [passing]; with no check it is
    not alive. *)
Theorem alive_iff_passing_checks s statuses meta w1 ser c :
  let q := api.mkQueryOptions (index (prov s)) (blockingWaitTime (prov s)) in
  api.Health_Service client (clusterName (prov s)) "" false q (world s)
    = (inr (statuses, meta), w1) ->
  statusValueSerializer (prov s) = Some ser ->
  cluster (prov s) = Some c ->
  exists evt,
    added s (final (notifyStatuses s))
    = [EvHealthService (clusterName (prov s)) "" false q (inr (statuses, meta));
       EvPublish c evt]
    /\ forall i v,
         statuses !! i = Some v ->
         exists ms,
           evt !! i = Some (Some ms)
           /\ (cluster.Alive ms = true
               <-> (0 < length (api.Checks v))%nat
                   /\ AggregatedStatus (api.Checks v) = api.HealthPassing)
           /\ (api.Checks v = [] -> cluster.Alive ms = false).
Proof.
  intros q Hq Hser Hc.
  rewrite (notifyStatuses_ok s statuses meta w1 ser c Hq Hser Hc).
  eexists. split.
  { unfold added. cbn [final trace]. by rewrite drop_app_length. }
  intros i v Hi. eexists. split.
  { by rewrite list_lookup_fmap, Hi. }
  unfold member_status. cbn [cluster.Alive]. split.
  - rewrite andb_true_iff, bool_decide_eq_true, String.eqb_eq. done.
  - intros ->. reflexivity.
Qed.

(** *** Refreshing the cached kinds *)

(** The member ID computed by the watch and the ID computed by the join
    differ at the separator that follows the cluster name. *)
Lemma Sprintf_slash_at_differ cn a n a' n' :
  String.eqb (Sprintf_slash cn a' n') (Sprintf_at cn a n) = false.
Proof.
  apply String.eqb_neq. unfold Sprintf_slash, Sprintf_at.
  induction cn as [|ch cn IH]; cbn [String.append]; intros Heq.
  - discriminate Heq.
  - injection Heq as Heq. by apply IH.
Qed.

Lemma self_kinds_after_join cn a n statuses kinds :
  self_kinds cn (Sprintf_at cn a n) statuses kinds = kinds.
Proof.
  unfold self_kinds. revert kinds.
  induction statuses as [|v rest IH]; intros kinds; [reflexivity|].
  cbn [foldl]. rewrite Sprintf_slash_at_differ. apply IH.
Qed.

(** So, for a provider whose ID was set by [RegisterMember], the test
    [memberID == p.id] of [notifyStatuses] never holds, and a watch leaves
    [knownKinds] as it was whatever the directory reports. *)
Lemma notifyStatuses_keeps_knownKinds s statuses meta w1 ser c a n :
  let q := api.mkQueryOptions (index (prov s)) (blockingWaitTime (prov s)) in
  api.Health_Service client (clusterName (prov s)) "" false q (world s)
    = (inr (statuses, meta), w1) ->
  statusValueSerializer (prov s) = Some ser ->
  cluster (prov s) = Some c ->
  id (prov s) = Sprintf_at (clusterName (prov s)) a n ->
  knownKinds (prov (final (notifyStatuses s))) = knownKinds (prov s).
Proof.
  intros q Hq Hser Hc Hid.
  rewrite (notifyStatuses_ok s statuses meta w1 ser c Hq Hser Hc).
  rewrite Hid, self_kinds_after_join. by destruct s as [[] ? ?].
Qed.

(** When the test does hold for some entry, the cached kinds become the
    tags of the last such entry. *)
Lemma notifyStatuses_refreshes_on_match s statuses meta w1 ser c :
  let q := api.mkQueryOptions (index (prov s)) (blockingWaitTime (prov s)) in
  api.Health_Service client (clusterName (prov s)) "" false q (world s)
    = (inr (statuses, meta), w1) ->
  statusValueSerializer (prov s) = Some ser ->
  cluster (prov s) = Some c ->
  knownKinds (prov (final (notifyStatuses s)))
  = self_kinds (clusterName (prov s)) (id (prov s)) statuses
      (knownKinds (prov s)).
Proof.
  intros q Hq Hser Hc.
  rewrite (notifyStatuses_ok s statuses meta w1 ser c Hq Hser Hc).
  by destruct s as [[] ? ?].
Qed.

End Properties.

(** ** The properties on the scripted directory *)
Section Scenarios.

#[local] Existing Instance Scripted.env.
#[local] Open Scope Z_scope.

(** C1 (the code departs from the claim). A provider joins as
    [mycluster@127.0.0.1:8080] with kinds A and B; the next watch response
    shows the instance at 127.0.0.1:8080 with kind A only.  The topology is
    published with kind A for that member, but the member ID computed by
    the watch is [mycluster/127.0.0.1:8080], which is not the provider's ID,
    so the cached kinds stay A and B. *)
Theorem cached_kinds_not_refreshed :
  let s1 := Scripted.joined in
  let s2 := final (notifyStatuses s1) in
  id (prov s1) = "mycluster@127.0.0.1:8080"
  /\ knownKinds (prov s1) = ["A"; "B"]
  /\ added s1 s2
     = [EvHealthService "mycluster" "" false
          (api.mkQueryOptions 7 (20 * Second))
          (inr ([Scripted.entry "127.0.0.1" 8080 ["A"] "up" ["passing"];
                 Scripted.entry "127.0.0.1" 8081 ["B"] "" []],
                api.mkQueryMeta 9));
        EvPublish "actorsystem"
          [Some (cluster.mkMemberStatus "mycluster/127.0.0.1:8080"
                   "127.0.0.1" 8080 ["A"] true (Some "up"));
           Some (cluster.mkMemberStatus "mycluster/127.0.0.1:8081"
                   "127.0.0.1" 8081 ["B"] false None)]]
  /\ knownKinds (prov s2) = ["A"; "B"].
Proof. cbv zeta. repeat (split; [reflexivity|]). reflexivity. Qed.

(** [UpdateMemberStatusValue] after [Shutdown] and after the join. *)
Lemma UpdateMemberStatusValue_cases_witness :
  (shutdown (prov Scripted.left) = true
   /\ UpdateMemberStatusValue (Some "busy") Scripted.left
      = Ret (Some ProviderShuttingDownError)
          (mkState (set_statusValue (Some "busy") (prov Scripted.left))
             (world Scripted.left) (trace Scripted.left)))
  /\ (shutdown (prov Scripted.joined) = false
      /\ statusValueSerializer (prov Scripted.joined)
         = Some Scripted.serializer
      /\ returned (UpdateMemberStatusValue (Some "busy") Scripted.joined)
         = Some None).
Proof.
  split.
  - split; [reflexivity|].
    apply (proj1 (proj2 (UpdateMemberStatusValue_cases Scripted.left))).
    reflexivity.
  - split; [reflexivity|]. split; [reflexivity|].
    exact (f_equal returned
             (proj2 (proj2 (UpdateMemberStatusValue_cases Scripted.joined))
                "busy" Scripted.serializer eq_refl eq_refl)).
Defined.

(** A status passed after [Shutdown] is rejected and stored; nil after the
    join is stored too. *)
Lemma UpdateMemberStatusValue_stores_first_witness :
  (shutdown (prov Scripted.left) = true
   /\ returned (UpdateMemberStatusValue (Some "busy") Scripted.left)
      = Some (Some ProviderShuttingDownError)
   /\ statusValue
        (prov (final (UpdateMemberStatusValue (Some "busy") Scripted.left)))
      = Some "busy")
  /\ (statusValueSerializer (prov Scripted.joined) = Some Scripted.serializer
      /\ returned (UpdateMemberStatusValue None Scripted.joined) = Some None
      /\ statusValue
           (prov (final (UpdateMemberStatusValue None Scripted.joined)))
         = None).
Proof.
  destruct (UpdateMemberStatusValue_stores_first Scripted.left (Some "busy"))
    as (Hleft & Hdown & _).
  destruct (UpdateMemberStatusValue_stores_first Scripted.joined None)
    as (Hjoined & _ & Hnil).
  split.
  - split; [reflexivity|]. split; [|exact Hleft].
    apply (Hdown "busy"); reflexivity.
  - split; [reflexivity|]. split; [|exact Hjoined].
    apply (proj1 (Hnil eq_refl)).
Defined.

(** A join against a directory that refuses the registration. *)
Lemma RegisterMember_fails_fast_witness :
  let s := Scripted.start Scripted.refusing in
  let p1 :=
    set_statusValueSerializer (Some Scripted.serializer)
      (set_statusValue (Some "up")
         (set_knownKinds ["A"; "B"] (set_port 8080 (set_address "127.0.0.1"
            (set_clusterName "mycluster"
               (set_id (Sprintf_at "mycluster" "127.0.0.1" 8080)
                  (set_cluster (Some "actorsystem") (prov s)))))))) in
  let reg := registration p1 Scripted.serializer in
  api.Agent_ServiceRegister client reg (world s)
    = (Some "connection refused", Scripted.refusing)
  /\ RegisterMember (Some "actorsystem") "mycluster" "127.0.0.1" 8080
       ["A"; "B"] (Some "up") (Some Scripted.serializer) s
     = Ret (Some "connection refused")
         (mkState p1 Scripted.refusing
            (trace s ++ [EvServiceRegister reg (Some "connection refused")])).
Proof.
  intros s p1 reg. split; [reflexivity|].
  apply (RegisterMember_fails_fast s (Some "actorsystem") "mycluster"
           "127.0.0.1" 8080 ["A"; "B"] (Some "up") Scripted.serializer
           "connection refused" Scripted.refusing).
  reflexivity.
Defined.

(** [Shutdown] after the join, on a directory that deregisters. *)
Lemma Shutdown_idempotent_witness :
  (api.Agent_ServiceDeregister client (id (prov Scripted.joined))
     (world Scripted.joined)).1 = None
  /\ returned (Shutdown Scripted.joined) = Some None
  /\ shutdown (prov Scripted.left) = true
  /\ Shutdown Scripted.left = Ret None Scripted.left
  /\ exists r s1,
       Shutdown Scripted.joined = Ret r s1 /\ Shutdown s1 = Ret None s1.
Proof.
  destruct (Shutdown_idempotent Scripted.joined)
    as (_ & (r & s1 & Hfirst & _ & Hsecond) & Hsuccess).
  destruct (Shutdown_idempotent Scripted.left) as (Hagain & _ & _).
  split; [reflexivity|]. split; [apply Hsuccess; reflexivity|].
  split; [reflexivity|]. split; [apply Hagain; reflexivity|].
  exists r, s1. split; [exact Hfirst | exact Hsecond].
Defined.

(** A watch pass whose health query fails. *)
Lemma notifyStatuses_query_error_witness :
  let s := Scripted.facing Scripted.refusing Scripted.joined in
  let q := api.mkQueryOptions 7 (20 * Second) in
  let s' :=
    mkState (prov s) Scripted.refusing
      (trace s ++
         [EvHealthService "mycluster" "" false q
            (inl "Unexpected response code: 500");
          EvLog "Error Unexpected response code: 500"]) in
  api.Health_Service client "mycluster" "" false q (world s)
    = (inl "Unexpected response code: 500", Scripted.refusing)
  /\ shutdown (prov s) = false
  /\ notifyStatuses s = Ret tt s'
  /\ index (prov s') = 7
  /\ Monitor_loop 1 s = Monitor_loop 0 s'.
Proof.
  intros s q s'.
  assert (Hq : api.Health_Service client (clusterName (prov s)) "" false
                 (api.mkQueryOptions (index (prov s))
                    (blockingWaitTime (prov s))) (world s)
               = (inl "Unexpected response code: 500", Scripted.refusing))
    by reflexivity.
  destruct (notifyStatuses_query_error s _ _ Hq) as (Hn & _ & _ & Hloop).
  split; [exact Hq|]. split; [reflexivity|]. split; [exact Hn|].
  split; [reflexivity|]. apply (Hloop 0%nat). reflexivity.
Defined.

(** Runs from the state after [Shutdown], from the joined state, and a
    deregistration that the directory refuses. *)
Lemma flags_monotonic_witness :
  let ops :=
    [OpUpdateMemberStatusValue (Some "busy"); OpnotifyStatuses;
     OpUpdateTTL_goroutine 3; OpDeregisterMember; OpShutdown] in
  let refused := Scripted.facing Scripted.refusing Scripted.joined in
  (shutdown (prov Scripted.left) = true
   /\ deregistered (prov Scripted.left) = true
   /\ shutdown (prov (final (run ops Scripted.left))) = true
   /\ deregistered (prov (final (run ops Scripted.left))) = true)
  /\ (deregistered (prov Scripted.joined) = false
      /\ deregistered (prov (final (run [OpShutdown] Scripted.joined))) = true
      /\ exists serviceID,
           EvServiceDeregister serviceID None
           ∈ added Scripted.joined (final (run [OpShutdown] Scripted.joined)))
  /\ (api.Agent_ServiceDeregister client (id (prov refused)) (world refused)
      = (Some "connection refused", Scripted.refusing)
      /\ deregistered (prov (final (DeregisterMember refused))) = false).
Proof.
  intros ops refused.
  destruct (flags_monotonic ops Scripted.left) as (Hs & Hd & _ & _).
  destruct (flags_monotonic [OpShutdown] Scripted.joined)
    as (_ & _ & Hraised & _).
  destruct (flags_monotonic [] refused) as (_ & _ & _ & Hfail).
  split; [|split].
  - split; [reflexivity|]. split; [reflexivity|].
    split; [apply Hs | apply Hd]; reflexivity.
  - split; [reflexivity|]. split; [reflexivity|].
    apply Hraised; reflexivity.
  - split; [reflexivity|].
    exact (f_equal (fun r => deregistered (prov (final r)))
             (Hfail "connection refused" Scripted.refusing eq_refl)).
Defined.

(** Heartbeat passes whose renewal fails: on a directory that still lists
    the service, and on one that has lost it. *)
Lemma heartbeat_repair_witness :
  let listed := Scripted.facing Scripted.listed Scripted.joined in
  let evicted := Scripted.facing Scripted.evicted Scripted.joined in
  let e := "check has no associated TTL" in
  let registers (s s' : State) :=
    filter (fun ev => is_register_call ev = true) (added s s') in
  (api.Agent_UpdateTTL client ("service:" +:+ id (prov listed)) ""
     api.HealthPassing (world listed) = (Some e, Scripted.listed)
   /\ api.Agent_Services client Scripted.listed
      = ((Scripted.local_services Scripted.listed, None), Scripted.listed)
   /\ is_Some (Scripted.local_services Scripted.listed !! id (prov listed))
   /\ registers listed (final (UpdateTTL_body listed)) = []
   /\ last (trace (final (UpdateTTL_body listed))) = Some (EvSleep Second))
  /\ (api.Agent_UpdateTTL client ("service:" +:+ id (prov evicted)) ""
        api.HealthPassing (world evicted) = (Some e, Scripted.evicted)
      /\ api.Agent_Services client Scripted.evicted
         = ((Scripted.local_services Scripted.evicted, None), Scripted.evicted)
      /\ Scripted.local_services Scripted.evicted !! id (prov evicted) = None
      /\ statusValueSerializer (prov evicted) = Some Scripted.serializer
      /\ length (registers evicted (final (UpdateTTL_body evicted))) = 1%nat
      /\ last (trace (final (UpdateTTL_body evicted))) = Some (EvSleep Second))
  /\ (shutdown (prov evicted) = false
      /\ exists s', UpdateTTL_body evicted = Ret tt s'
                    /\ UpdateTTL_loop 1 evicted = UpdateTTL_loop 0 s').
Proof.
  intros listed evicted e registers.
  destruct (heartbeat_repair listed e Scripted.listed
              (Scripted.local_services Scripted.listed) None Scripted.listed
              eq_refl eq_refl) as (Hfound & _ & _).
  destruct (heartbeat_repair evicted e Scripted.evicted
              (Scripted.local_services Scripted.evicted) None Scripted.evicted
              eq_refl eq_refl) as (_ & Habsent & Hloop).
  assert (Hsome : is_Some (Scripted.local_services Scripted.listed
                             !! id (prov listed)))
    by (eexists; reflexivity).
  destruct (Habsent eq_refl Scripted.serializer eq_refl) as [msg Hbody].
  split; [|split].
  - split; [reflexivity|]. split; [reflexivity|]. split; [exact Hsome|].
    split.
    + exact (f_equal (fun r => registers listed (final r)) (Hfound Hsome)).
    + exact (f_equal (fun r => last (trace (final r))) (Hfound Hsome)).
  - split; [reflexivity|]. split; [reflexivity|]. split; [reflexivity|].
    split; [reflexivity|]. split.
    + exact (f_equal (fun r => length (registers evicted (final r))) Hbody).
    + exact (f_equal (fun r => last (trace (final r))) Hbody).
  - split; [reflexivity|]. eexists. split; [exact Hbody|].
    apply (Hloop 0%nat); [reflexivity | exact Hbody].
Defined.

(** The watch pass that follows the join. *)
Lemma snapshot_exhaustive_witness :
  let s := Scripted.joined in
  let q := api.mkQueryOptions 7 (20 * Second) in
  let statuses :=
    [Scripted.entry "127.0.0.1" 8080 ["A"] "up" ["passing"];
     Scripted.entry "127.0.0.1" 8081 ["B"] "" []] in
  let evt :=
    [Some (cluster.mkMemberStatus "mycluster/127.0.0.1:8080" "127.0.0.1" 8080
             ["A"] true (Some "up"));
     Some (cluster.mkMemberStatus "mycluster/127.0.0.1:8081" "127.0.0.1" 8081
             ["B"] false None)] in
  api.Health_Service client "mycluster" "" false q (world s)
    = (inr (statuses, api.mkQueryMeta 9),
       Scripted.mkDirectory None None None ∅ [])
  /\ EvPublish "actorsystem" evt ∈ added s (final (notifyStatuses s))
  /\ filter (fun ev => is_publish ev = true)
       (added s (final (notifyStatuses s)))
     = [EvPublish "actorsystem" evt]
  /\ length evt = length statuses.
Proof.
  intros s q statuses evt.
  assert (Hq : api.Health_Service client (clusterName (prov s)) "" false
                 (api.mkQueryOptions (index (prov s))
                    (blockingWaitTime (prov s))) (world s)
               = (inr (statuses, api.mkQueryMeta 9),
                  Scripted.mkDirectory None None None ∅ []))
    by reflexivity.
  assert (Hin : EvPublish "actorsystem" evt
                ∈ added s (final (notifyStatuses s))).
  { change (EvPublish "actorsystem" evt
            ∈ [EvHealthService "mycluster" "" false q
                 (inr (statuses, api.mkQueryMeta 9));
               EvPublish "actorsystem" evt]).
    apply elem_of_cons. right. apply elem_of_cons. by left. }
  destruct (proj1 (snapshot_exhaustive s statuses _ _ Hq) "actorsystem" evt Hin)
    as (Hone & Hlen & _).
  split; [exact Hq|]. split; [exact Hin|]. split; [exact Hone | exact Hlen].
Defined.

(** The same watch pass: the member with a passing check is alive, the
    member without checks is not. *)
Lemma alive_iff_passing_checks_witness :
  let s := Scripted.joined in
  let q := api.mkQueryOptions 7 (20 * Second) in
  let v0 := Scripted.entry "127.0.0.1" 8080 ["A"] "up" ["passing"] in
  let v1 := Scripted.entry "127.0.0.1" 8081 ["B"] "" [] in
  api.Health_Service client "mycluster" "" false q (world s)
    = (inr ([v0; v1], api.mkQueryMeta 9),
       Scripted.mkDirectory None None None ∅ [])
  /\ statusValueSerializer (prov s) = Some Scripted.serializer
  /\ cluster (prov s) = Some "actorsystem"
  /\ exists evt ms0 ms1,
       added s (final (notifyStatuses s))
       = [EvHealthService "mycluster" "" false q
            (inr ([v0; v1], api.mkQueryMeta 9));
          EvPublish "actorsystem" evt]
       /\ evt !! 0%nat = Some (Some ms0) /\ cluster.Alive ms0 = true
       /\ evt !! 1%nat = Some (Some ms1) /\ cluster.Alive ms1 = false.
Proof.
  intros s q v0 v1.
  assert (Hq : api.Health_Service client (clusterName (prov s)) "" false
                 (api.mkQueryOptions (index (prov s))
                    (blockingWaitTime (prov s))) (world s)
               = (inr ([v0; v1], api.mkQueryMeta 9),
                  Scripted.mkDirectory None None None ∅ []))
    by reflexivity.
  destruct (alive_iff_passing_checks s [v0; v1] _ _ Scripted.serializer
              "actorsystem" Hq eq_refl eq_refl) as (evt & Hadd & Hall).
  destruct (Hall 0%nat v0 eq_refl) as (ms0 & H0 & Halive & _).
  destruct (Hall 1%nat v1 eq_refl) as (ms1 & H1 & _ & Hnone).
  split; [exact Hq|]. split; [reflexivity|]. split; [reflexivity|].
  exists evt, ms0, ms1. split; [exact Hadd|].
  split; [exact H0|]. split.
  - apply Halive. split; [apply Nat.lt_0_1 | reflexivity].
  - split; [exact H1 | apply Hnone; reflexivity].
Defined.

End Scenarios.

(** * Further properties of the provider *)

Section Frames_facts.

Context `{Env}.

Variable P : Provider -> Provider -> Prop.
Variable Q : Event -> Prop.
Hypothesis P_refl : forall p, P p p.
Hypothesis P_trans : forall p1 p2 p3, P p1 p2 -> P p2 p3 -> P p1 p3.

#[local] Set Default Proof Using "All".

Lemma frame_step_refl s : frame_step P Q s s.
Proof.
  split; [apply P_refl|]. exists []. by rewrite app_nil_r.
Qed.

Lemma frame_step_trans s1 s2 s3 :
  frame_step P Q s1 s2 -> frame_step P Q s2 s3 -> frame_step P Q s1 s3.
Proof.
  intros (HP1 & evs1 & Ht1 & HQ1) (HP2 & evs2 & Ht2 & HQ2).
  split; [by eapply P_trans|]. exists (evs1 ++ evs2). split.
  - by rewrite Ht2, Ht1, app_assoc.
  - by apply Forall_app.
Qed.

Lemma framed_ret {A} (a : A) : framed P Q (ret a).
Proof. intros s. apply frame_step_refl. Qed.

Lemma framed_panic {A} : framed P Q (@panic _ A).
Proof. intros s. apply frame_step_refl. Qed.

Lemma framed_get : framed P Q get.
Proof. intros s. apply frame_step_refl. Qed.

Lemma framed_deref {A} (o : option A) : framed P Q (deref o).
Proof. destruct o; [apply framed_ret | apply framed_panic]. Qed.

Lemma framed_bind {A B} (m : M A) (k : A -> M B) :
  framed P Q m -> (forall a, framed P Q (k a)) -> framed P Q (bind m k).
Proof.
  intros Hm Hk s. unfold bind. specialize (Hm s).
  destruct (m s) as [a s'|s']; cbn [final] in *; [|exact Hm].
  eapply frame_step_trans; [exact Hm | apply Hk].
Qed.

Lemma framed_emit ev : Q ev -> framed P Q (emit ev).
Proof.
  intros HQ s. split; [apply P_refl|]. exists [ev].
  split; [done|]. by apply Forall_singleton.
Qed.

Lemma framed_call {A} (f : W -> A * W) (ev : A -> Event) :
  (forall a, Q (ev a)) -> framed P Q (call f ev).
Proof.
  intros HQ s. unfold call. destruct (f (world s)) as [a w].
  split; [apply P_refl|]. exists [ev a].
  split; [done|]. by apply Forall_singleton.
Qed.

Lemma framed_modify (f : Provider -> Provider) :
  (forall p, P p (f p)) -> framed P Q (modify f).
Proof.
  intros Hf s. split; [apply Hf|]. exists []. by rewrite app_nil_r.
Qed.

End Frames_facts.

(** Splits a computation into its steps; what is left are the side
    conditions on the assignments and on the events. *)
Ltac framed :=
  repeat first
    [ solve [auto]
    | apply framed_ret; solve [auto]
    | apply framed_panic; solve [auto]
    | apply framed_get; solve [auto]
    | apply framed_deref; solve [auto]
    | apply framed_emit; [solve [auto] | solve [auto] | exact I]
    | apply framed_call; [solve [auto] | solve [auto] | intros ?; exact I]
    | apply framed_modify;
        [solve [auto] | solve [auto]
        | intros []; first [reflexivity | by repeat split]]
    | apply framed_bind; [solve [auto] | solve [auto] | | intros ? ]
    | match goal with
      | |- framed _ _ (match ?x with _ => _ end) => destruct x
      | |- framed _ _ (let _ := _ in _) => cbv zeta
      end ].

Section Heartbeat.

Context `{Env}.

Implicit Types (s : State) (p : Provider).

(** The search through the local services changes neither the provider
    nor the directory, and does not panic. *)
Lemma range_services_cases ids s :
  (id (prov s) ∈ ids
   /\ range_services ids s
      = Ret true
          (mkState (prov s) (world s)
             (trace s ++
                [EvLog "[CLUSTER] [CONSUL] Service found in consul -> doing nothing";
                 EvSleep (refreshTTL (prov s))])))
  \/ ((id (prov s) ∉ ids) /\ range_services ids s = Ret false s).
Proof.
  destruct (decide (id (prov s) ∈ ids)) as [Hin|Hnin].
  - left. split; [done|]. by apply range_services_found.
  - right. split; [done|]. by apply range_services_absent.
Qed.

(** A pass whose renewal succeeds. *)
Lemma UpdateTTL_body_renewed s w1 :
  let checkID := "service:" +:+ id (prov s) in
  api.Agent_UpdateTTL client checkID "" api.HealthPassing (world s)
    = (None, w1) ->
  UpdateTTL_body s
  = Ret tt
      (mkState (set_clusterError None (prov s)) w1
         (trace s ++ [EvUpdateTTL checkID "" api.HealthPassing None;
                      EvSleep (refreshTTL (prov s))])).
Proof.
  intros checkID Httl. subst checkID. open_state s.
  unfold UpdateTTL_body, blockingUpdateTTL. run_go.
  rewrite <- app_assoc. reflexivity.
Qed.

(** What a pass leaves behind, in every outcome: the provider with the
    result of the renewal call as its last heartbeat error.  [found] tells
    which events follow the listing. *)
Lemma UpdateTTL_body_outcome s :
  let checkID := "service:" +:+ id (prov s) in
  let r := api.Agent_UpdateTTL client checkID "" api.HealthPassing (world s) in
  exists evs,
    prov (final (UpdateTTL_body s)) = set_clusterError r.1 (prov s)
    /\ trace (final (UpdateTTL_body s))
       = trace s ++ EvUpdateTTL checkID "" api.HealthPassing r.1 :: evs
    /\ Forall heartbeat_event evs
    /\ filter (fun ev => is_renewal ev = true) evs = []
    /\ (is_Some (statusValueSerializer (prov s)) ->
        returned (UpdateTTL_body s) = Some tt).
Proof.
  intros checkID r. subst r checkID.
  remember (UpdateTTL_body s) as res eqn:Hres.
  destruct (api.Agent_UpdateTTL client _ "" api.HealthPassing (world s))
    as [[e|] w1] eqn:Httl.
  2:{ rewrite (UpdateTTL_body_renewed s w1 Httl) in Hres. subst res.
      exists [EvSleep (refreshTTL (prov s))]. cbn [final prov trace fst].
      repeat split; try done. by repeat constructor. }
  destruct (api.Agent_Services client w1) as [[services serr] w2] eqn:Hsvc.
  rewrite (UpdateTTL_body_renewal_failed s e w1 services serr w2 Httl Hsvc)
    in Hres.
  unfold bind at 1 in Hres.
  match type of Hres with context [range_services ?ids ?s1] =>
    destruct (range_services_cases ids s1) as [[_ Hr]|[_ Hr]];
      rewrite Hr in Hres; clear Hr
  end.
  - subst res. eexists. cbn [final prov trace fst ret returned].
    rewrite <- app_assoc. cbn [app].
    repeat split; try done. by repeat constructor.
  - destruct (statusValueSerializer (prov s)) as [ser|] eqn:Hser.
    + match type of Hres with context [UpdateTTL_reregister ?s1] =>
        destruct (UpdateTTL_reregister_spec s1 ser) as [msg Hr];
          [by destruct s as [[] ? ?]|]; rewrite Hr in Hres; clear Hr
      end.
      subst res. eexists. cbn [final prov trace fst returned].
      rewrite <- app_assoc. cbn [app].
      repeat split; try done. by repeat constructor.
    + subst res.
      exists [EvLog "[CLUSTER] [CONSUL] Failure refreshing service TTL. Trying to reregister service if not in consul.";
              EvServices (services, serr)].
      open_state s. unfold UpdateTTL_reregister, registerService. run_go.
      repeat split; try done;
        first [by repeat constructor | by intros [? ?]].
Qed.

(** X6. After a heartbeat pass, whatever it did and however it ended,
    [GetHealthStatus] returns what the TTL renewal call of that pass
    returned: a re-registration, failed or not, does not show in it.  The
    pass changes no other field of the provider, and [GetHealthStatus]
    changes nothing at all. *)
Theorem GetHealthStatus_after_heartbeat_pass s :
  let checkID := "service:" +:+ id (prov s) in
  let r := api.Agent_UpdateTTL client checkID "" api.HealthPassing (world s) in
  let s' := final (UpdateTTL_body s) in
  prov s' = set_clusterError r.1 (prov s)
  /\ GetHealthStatus s' = Ret r.1 s'.
Proof.
  intros checkID r s'.
  destruct (UpdateTTL_body_outcome s) as (evs & Hprov & _).
  fold checkID r s' in Hprov. split; [exact Hprov|].
  unfold GetHealthStatus, bind, get, ret. rewrite Hprov.
  by destruct (prov s).
Qed.

Lemma returned_final {A} (m : M A) s a :
  returned (m s) = Some a -> m s = Ret a (final (m s)).
Proof. destruct (m s); cbn; congruence. Qed.

(** The loop with its trace made explicit. *)
Lemma UpdateTTL_loop_runs fuel :
  forall s,
    shutdown (prov s) = false ->
    is_Some (statusValueSerializer (prov s)) ->
    exists s' evs,
      UpdateTTL_loop fuel s = Ret false s'
      /\ trace s' = trace s ++ evs
      /\ shutdown (prov s') = false
      /\ length (filter (fun ev => is_renewal ev = true) evs) = fuel.
Proof.
  induction fuel as [|n IH]; intros s Hsd Hser.
  - exists s, []. cbn [UpdateTTL_loop]. unfold bind, get, ret.
    rewrite Hsd, app_nil_r. done.
  - destruct (UpdateTTL_body_outcome s)
      as (evs1 & Hprov & Htrace & _ & Hcount & Hret).
    pose proof (returned_final _ _ _ (Hret Hser)) as Hbody.
    destruct (IH (final (UpdateTTL_body s)))
      as (s' & evs2 & Hloop & Ht & Hsd' & Hn).
    { rewrite Hprov. destruct s as [[] ? ?]. exact Hsd. }
    { rewrite Hprov. destruct s as [[] ? ?]. exact Hser. }
    eexists s', _. cbn [UpdateTTL_loop]. unfold bind at 1, get at 1.
    rewrite Hsd. unfold bind at 1. rewrite Hbody, Hloop.
    split; [done|]. split; [by rewrite Ht, Htrace, <- app_assoc|].
    split; [done|].
    rewrite <- app_comm_cons, filter_cons_True by done.
    rewrite filter_app, Hcount. cbn [length app]. by rewrite Hn.
Qed.

Lemma UpdateTTL_loop_stopped fuel s :
  shutdown (prov s) = true -> UpdateTTL_loop fuel s = Ret true s.
Proof.
  intros Hsd. destruct fuel; cbn [UpdateTTL_loop];
    unfold bind, get, ret; by rewrite Hsd.
Qed.

(** X7. The heartbeat loop ends only on the shutdown flag.  With the flag set
    it stops at once, before any directory call.  With the flag clear (and
    the serializer of the join stored) it is still running after any number
    of passes, whatever the directory answers, and every pass made exactly
    one TTL renewal call. *)
Theorem heartbeat_runs_until_shutdown (fuel : nat) s :
  (shutdown (prov s) = true -> UpdateTTL_loop fuel s = Ret true s)
  /\ (shutdown (prov s) = false ->
      is_Some (statusValueSerializer (prov s)) ->
      exists s',
        UpdateTTL_loop fuel s = Ret false s'
        /\ shutdown (prov s') = false
        /\ length (filter (fun ev => is_renewal ev = true) (added s s'))
           = fuel).
Proof.
  split; [apply UpdateTTL_loop_stopped|].
  - intros Hsd Hser.
    destruct (UpdateTTL_loop_runs fuel s Hsd Hser)
      as (s' & evs & Hloop & Ht & Hsd' & Hn).
    exists s'. split; [done|]. split; [done|].
    unfold added. by rewrite Ht, drop_app_length.
Qed.

Lemma heartbeat_frame_refl p : heartbeat_frame p p.
Proof. by destruct p. Qed.

Lemma heartbeat_frame_trans p1 p2 p3 :
  heartbeat_frame p1 p2 -> heartbeat_frame p2 p3 -> heartbeat_frame p1 p3.
Proof.
  destruct p1, p2, p3. unfold heartbeat_frame. go_cbv.
  intros [=] [=]. subst. reflexivity.
Qed.

(** X8. The heartbeat goroutine, over any number of passes and however it
    ends, changes no field of the provider but the last heartbeat error and
    the wait group, and what it does to the outside is renewing, listing,
    registering, sleeping and logging: it never deregisters, queries the
    health endpoint or publishes. *)
Theorem heartbeat_footprint (fuel : nat) s :
  let s' := final (UpdateTTL_goroutine fuel s) in
  heartbeat_frame (prov s) (prov s')
  /\ exists evs, trace s' = trace s ++ evs /\ Forall heartbeat_event evs.
Proof.
  pose proof heartbeat_frame_refl as Hrefl.
  pose proof heartbeat_frame_trans as Htrans.
  assert (Hreg : framed heartbeat_frame heartbeat_event registerService)
    by (unfold registerService; framed).
  assert (Hrange : forall ids,
             framed heartbeat_frame heartbeat_event (range_services ids)).
  { induction ids as [|i rest IH]; cbn [range_services]; framed. }
  assert (Hbody : framed heartbeat_frame heartbeat_event UpdateTTL_body).
  { unfold UpdateTTL_body, UpdateTTL_reregister, blockingUpdateTTL. framed. }
  assert (Hloop : forall n,
             framed heartbeat_frame heartbeat_event (UpdateTTL_loop n)).
  { induction n as [|n IH]; cbn [UpdateTTL_loop]; framed. }
  assert (Hgo : framed heartbeat_frame heartbeat_event
                   (UpdateTTL_goroutine fuel)).
  { unfold UpdateTTL_goroutine. framed. }
  exact (Hgo s).
Qed.

(** X5. A pass whose TTL renewal succeeds makes no other directory call: it
    records a nil heartbeat error and sleeps for the refresh interval. *)
Theorem heartbeat_pass_renewed s w1 :
  let checkID := "service:" +:+ id (prov s) in
  api.Agent_UpdateTTL client checkID "" api.HealthPassing (world s)
    = (None, w1) ->
  exists s',
    UpdateTTL_body s = Ret tt s'
    /\ added s s' = [EvUpdateTTL checkID "" api.HealthPassing None;
                     EvSleep (refreshTTL (prov s))]
    /\ world s' = w1
    /\ clusterError (prov s') = None.
Proof.
  intros checkID Httl. eexists. split.
  - apply (UpdateTTL_body_renewed s w1 Httl).
  - unfold added. cbn [trace world prov]. rewrite drop_app_length.
    repeat split.
Qed.





End Heartbeat.

Section Watch.

Context `{Env}.

Implicit Types (s : State) (p : Provider).

(** A pass whose health query fails. *)
Lemma notifyStatuses_inl s e w1 :
  let q := api.mkQueryOptions (index (prov s)) (blockingWaitTime (prov s)) in
  api.Health_Service client (clusterName (prov s)) "" false q (world s)
    = (inl e, w1) ->
  notifyStatuses s
  = Ret tt
      (mkState (prov s) w1
         (trace s ++ [EvHealthService (clusterName (prov s)) "" false q (inl e);
                      EvLog ("Error " +:+ e)])).
Proof.
  intros q Hq. subst q. open_state s. unfold notifyStatuses. run_go.
  rewrite <- app_assoc. reflexivity.
Qed.

(** Every pass begins with a health query for the provider's cluster name
    at the provider's index. *)
Lemma notifyStatuses_first_event s :
  exists r rest,
    added s (final (notifyStatuses s))
    = EvHealthService (clusterName (prov s)) "" false
        (api.mkQueryOptions (index (prov s)) (blockingWaitTime (prov s))) r
      :: rest
    /\ filter (fun ev => is_health_query ev = true) rest = [].
Proof.
  destruct (api.Health_Service client (clusterName (prov s)) "" false
              (api.mkQueryOptions (index (prov s)) (blockingWaitTime (prov s)))
              (world s)) as [[e|[statuses meta]] w1] eqn:Hq.
  - rewrite (notifyStatuses_inl s e w1 Hq). eexists _, _.
    unfold added. cbn [final trace]. rewrite drop_app_length. done.
  - destruct (notifyStatuses_publications s statuses meta w1 Hq)
      as (pubs & -> & Hpubs).
    eexists _, _. split; [reflexivity|].
    destruct Hpubs as [->|[c [[-> _]|(ser & _ & ->)]]]; reflexivity.
Qed.

Lemma watch_frame_refl p : watch_frame p p.
Proof. by destruct p. Qed.

Lemma watch_frame_trans p1 p2 p3 :
  watch_frame p1 p2 -> watch_frame p2 p3 -> watch_frame p1 p3.
Proof.
  destruct p1, p2, p3. unfold watch_frame. go_cbv.
  intros [=] [=]. subst. reflexivity.
Qed.

Lemma watch_frame_fields p p' :
  watch_frame p p' ->
  shutdown p' = shutdown p
  /\ statusValueSerializer p' = statusValueSerializer p
  /\ cluster p' = cluster p
  /\ clusterName p' = clusterName p
  /\ id p' = id p
  /\ blockingWaitTime p' = blockingWaitTime p
  /\ clusterError p' = clusterError p.
Proof.
  destruct p, p'. unfold watch_frame. go_cbv. intros [=]. subst. done.
Qed.

Lemma framed_notifyStatuses : framed watch_frame watch_event notifyStatuses.
Proof.
  pose proof watch_frame_refl as Hrefl.
  pose proof watch_frame_trans as Htrans.
  assert (Hrange : forall statuses i res,
             framed watch_frame watch_event (notify_range i statuses res)).
  { induction statuses as [|v rest IH]; intros i res; cbn [notify_range];
      [framed|].
    apply framed_bind; [done | done | unfold notify_entry; framed |].
    intros ?. apply IH. }
  unfold notifyStatuses. framed.
Qed.

(** X11. The watch goroutine, over any number of passes and however it ends,
    changes no field of the provider but the index and the cached kinds (so
    a failing watch never shows in [GetHealthStatus]), and what it does to
    the outside is querying the health endpoint, logging and publishing: it
    never registers, deregisters or renews the TTL. *)
Theorem watch_footprint (fuel : nat) s :
  let s' := final (Monitor_loop fuel s) in
  watch_frame (prov s) (prov s')
  /\ clusterError (prov s') = clusterError (prov s)
  /\ exists evs, trace s' = trace s ++ evs /\ Forall watch_event evs.
Proof.
  pose proof watch_frame_refl as Hrefl.
  pose proof watch_frame_trans as Htrans.
  pose proof framed_notifyStatuses as Hpass.
  assert (Hloop : framed watch_frame watch_event (Monitor_loop fuel)).
  { induction fuel as [|n IH]; cbn [Monitor_loop]; framed. }
  destruct (Hloop s) as [Hframe Hevs]. split; [exact Hframe|].
  split; [|exact Hevs]. by apply watch_frame_fields in Hframe as (_&_&_&_&_&_&?).
Qed.

(** A pass of a provider that holds a serializer and a cluster returns. *)
Lemma notifyStatuses_returns s :
  is_Some (statusValueSerializer (prov s)) ->
  is_Some (cluster (prov s)) ->
  notifyStatuses s = Ret tt (final (notifyStatuses s)).
Proof.
  intros [ser Hser] [c Hc].
  destruct (api.Health_Service client (clusterName (prov s)) "" false
              (api.mkQueryOptions (index (prov s)) (blockingWaitTime (prov s)))
              (world s)) as [[e|[statuses meta]] w1] eqn:Hq.
  - by rewrite (notifyStatuses_inl s e w1 Hq).
  - by rewrite (notifyStatuses_ok s statuses meta w1 ser c Hq Hser Hc).
Qed.

Lemma Monitor_loop_runs fuel :
  forall s,
    shutdown (prov s) = false ->
    is_Some (statusValueSerializer (prov s)) ->
    is_Some (cluster (prov s)) ->
    exists s' evs,
      Monitor_loop fuel s = Ret false s'
      /\ trace s' = trace s ++ evs
      /\ shutdown (prov s') = false
      /\ length (filter (fun ev => is_health_query ev = true) evs) = fuel.
Proof.
  induction fuel as [|n IH]; intros s Hsd Hser Hc.
  - exists s, []. cbn [Monitor_loop]. unfold bind, get, ret.
    rewrite Hsd, app_nil_r. done.
  - pose proof (notifyStatuses_returns s Hser Hc) as Hpass.
    destruct (framed_notifyStatuses s) as [Hframe (evs1 & Ht1 & _)].
    apply watch_frame_fields in Hframe as (Hsd1 & Hser1 & Hc1 & _).
    destruct (notifyStatuses_first_event s) as (r & rest & Hadd & Hrest).
    unfold added in Hadd. rewrite Ht1, drop_app_length in Hadd. subst evs1.
    destruct (IH (final (notifyStatuses s)))
      as (s' & evs2 & Hloop & Ht2 & Hsd' & Hn).
    { by rewrite Hsd1. } { by rewrite Hser1. } { by rewrite Hc1. }
    eexists s', _. cbn [Monitor_loop]. unfold bind at 1, get at 1.
    rewrite Hsd. unfold bind at 1. rewrite Hpass, Hloop.
    split; [done|]. split; [by rewrite Ht2, Ht1, <- app_assoc|].
    split; [done|].
    rewrite <- app_comm_cons, filter_cons_True by done.
    rewrite filter_app, Hrest. cbn [length app]. by rewrite Hn.
Qed.

(** X10. The watch loop ends only on the shutdown flag.  With the flag set it
    stops before any query.  With the flag clear, for a provider that has
    joined (serializer and cluster stored), it is still running after any
    number of passes, whether the queries fail or succeed, and every pass
    made exactly one health query. *)
Theorem watch_runs_until_shutdown (fuel : nat) s :
  (shutdown (prov s) = true -> Monitor_loop fuel s = Ret true s)
  /\ (shutdown (prov s) = false ->
      is_Some (statusValueSerializer (prov s)) ->
      is_Some (cluster (prov s)) ->
      exists s',
        Monitor_loop fuel s = Ret false s'
        /\ shutdown (prov s') = false
        /\ length (filter (fun ev => is_health_query ev = true) (added s s'))
           = fuel).
Proof.
  split.
  - intros Hsd. destruct fuel; cbn [Monitor_loop];
      unfold bind, get, ret; by rewrite Hsd.
  - intros Hsd Hser Hc.
    destruct (Monitor_loop_runs fuel s Hsd Hser Hc)
      as (s' & evs & Hloop & Ht & Hsd' & Hn).
    exists s'. split; [done|]. split; [done|].
    unfold added. by rewrite Ht, drop_app_length.
Qed.

(** X12. The index returned by a successful health query is the wait index of
    the next query, whatever its value; the next query is for the same
    cluster name with the same wait time. *)
Theorem watch_index_chain s statuses meta w1 ser c :
  let q := api.mkQueryOptions (index (prov s)) (blockingWaitTime (prov s)) in
  api.Health_Service client (clusterName (prov s)) "" false q (world s)
    = (inr (statuses, meta), w1) ->
  statusValueSerializer (prov s) = Some ser ->
  cluster (prov s) = Some c ->
  let s1 := final (notifyStatuses s) in
  index (prov s1) = api.LastIndex meta
  /\ exists r rest,
       added s1 (final (notifyStatuses s1))
       = EvHealthService (clusterName (prov s)) "" false
           (api.mkQueryOptions (api.LastIndex meta) (blockingWaitTime (prov s)))
           r
         :: rest.
Proof.
  intros q Hq Hser Hc s1.
  assert (Hprov : prov s1
                  = set_knownKinds
                      (self_kinds (clusterName (prov s)) (id (prov s)) statuses
                         (knownKinds (prov s)))
                      (set_index (api.LastIndex meta) (prov s))).
  { subst s1.
    by rewrite (notifyStatuses_ok s statuses meta w1 ser c Hq Hser Hc). }
  split; [rewrite Hprov; by destruct s as [[] ? ?]|].
  destruct (notifyStatuses_first_event s1) as (r & rest & Hadd & _).
  exists r, rest. rewrite Hadd, Hprov. by destruct s as [[] ? ?].
Qed.

(** For a provider whose ID has the form given by [RegisterMember], the
    loop of [notifyStatuses] leaves the provider as it is, whether or not it
    panics. *)
Lemma notify_range_joined a n statuses :
  forall i res s,
    id (prov s) = Sprintf_at (clusterName (prov s)) a n ->
    prov (final (notify_range i statuses res s)) = prov s.
Proof.
  induction statuses as [|v rest IH]; intros i res s Hid; [reflexivity|].
  cbn [notify_range]. unfold bind at 1, notify_entry.
  unfold bind at 1, get at 1. unfold bind at 1.
  destruct (statusValueSerializer (prov s)) as [ser|]; [|reflexivity].
  unfold deref, ret at 1. unfold bind at 1.
  rewrite Hid, Sprintf_slash_at_differ. unfold ret. by apply IH.
Qed.

(** X13. The watch never changes the cached kinds of a provider that has joined:
    over any number of passes, whatever the directory reports and however
    the loop ends, a provider whose ID was formed by [RegisterMember] keeps
    its [knownKinds]; only its index moves. *)
Theorem watch_keeps_kinds_of_joined (fuel : nat) s a n :
  id (prov s) = Sprintf_at (clusterName (prov s)) a n ->
  let s' := final (Monitor_loop fuel s) in
  knownKinds (prov s') = knownKinds (prov s)
  /\ set_index (index (prov s)) (prov s') = prov s.
Proof.
  intros Hid s'. subst s'.
  assert (Hpass : forall s1,
             id (prov s1) = Sprintf_at (clusterName (prov s1)) a n ->
             exists k, prov (final (notifyStatuses s1))
                       = set_index k (prov s1)).
  { intros s1 Hid1.
    destruct (api.Health_Service client (clusterName (prov s1)) "" false
                (api.mkQueryOptions (index (prov s1))
                   (blockingWaitTime (prov s1)))
                (world s1)) as [[e|[statuses meta]] w1] eqn:Hq.
    - rewrite (notifyStatuses_inl s1 e w1 Hq). exists (index (prov s1)).
      by destruct s1 as [[] ? ?].
    - rewrite (notifyStatuses_inr s1 statuses meta w1 Hq).
      exists (api.LastIndex meta). unfold bind at 1.
      match goal with |- context [notify_range 0 statuses ?res ?s2] =>
        pose proof (notify_range_joined a n statuses 0 res s2) as Hr;
          destruct (notify_range 0 statuses res s2) as [evt s3|s3]
      end; cbn [final prov] in Hr |- *.
      + rewrite <- Hr by (by destruct s1 as [[] ? ?]).
        unfold bind, get, deref, ret, panic, emit.
        by destruct (cluster (prov s3)).
      + apply Hr. by destruct s1 as [[] ? ?]. }
  assert (Hloop : forall m s1,
             id (prov s1) = Sprintf_at (clusterName (prov s1)) a n ->
             exists k, prov (final (Monitor_loop m s1)) = set_index k (prov s1)).
  { induction m as [|m IH]; intros s1 Hid1; cbn [Monitor_loop];
      unfold bind at 1, get at 1.
    - exists (index (prov s1)).
      destruct (shutdown (prov s1)); by destruct s1 as [[] ? ?].
    - destruct (shutdown (prov s1)).
      { exists (index (prov s1)). by destruct s1 as [[] ? ?]. }
      destruct (Hpass s1 Hid1) as [k Hk]. unfold bind at 1.
      destruct (notifyStatuses s1) as [[] s2|s2]; cbn [final] in Hk |- *.
      + destruct (IH s2) as [k' Hk'].
        { rewrite Hk. by destruct s1 as [[] ? ?]. }
        exists k'. rewrite Hk', Hk. by destruct s1 as [[] ? ?].
      + eauto. }
  destruct (Hloop fuel s Hid) as [k ->]. by destruct s as [[] ? ?].
Qed.

End Watch.

Section Join.

Context `{Env}.

Implicit Types (s : State) (p : Provider).

(** X1. A join in which the directory accepts the registration, the renewal and
    the health query: [RegisterMember] returns nil after exactly these
    steps, in this order: the registration, the renewal of the check
    ["service:" + id], the health query, the publication of the whole
    response, the start of the heartbeat goroutine.  The watch goroutine is
    not started, and the kinds stored are those passed in. *)
Theorem join_succeeds s c cn a n kinds sv ser w1 w2 statuses meta w3 :
  let p1 := join_fields (Some c) cn a n kinds sv (Some ser) (prov s) in
  let reg := registration p1 ser in
  let checkID := "service:" +:+ Sprintf_at cn a n in
  let q := api.mkQueryOptions (index (prov s)) (blockingWaitTime (prov s)) in
  api.Agent_ServiceRegister client reg (world s) = (None, w1) ->
  api.Agent_UpdateTTL client checkID "" api.HealthPassing w1 = (None, w2) ->
  api.Health_Service client cn "" false q w2 = (inr (statuses, meta), w3) ->
  RegisterMember (Some c) cn a n kinds sv (Some ser) s
  = Ret None
      (mkState (set_index (api.LastIndex meta) (set_clusterError None p1)) w3
         (trace s ++
            [EvServiceRegister reg None;
             EvUpdateTTL checkID "" api.HealthPassing None;
             EvHealthService cn "" false q (inr (statuses, meta));
             EvPublish c ((fun v => Some (member_status cn ser v)) <$> statuses);
             EvGo "UpdateTTL"])).
Proof.
  intros p1 reg checkID q Hreg Httl Hq. subst p1 reg checkID q.
  open_state s.
  unfold RegisterMember, join_fields, registerService, blockingUpdateTTL,
    blockingStatusChange, UpdateTTL in *.
  run_go.
  match goal with |- context [notifyStatuses ?s2] =>
    rewrite (notifyStatuses_ok s2 statuses meta w3 ser c Hq eq_refl eq_refl)
  end.
  go_cbv. rewrite self_kinds_after_join, <- !app_assoc. reflexivity.
Qed.

(** X2. A join whose first health query fails still returns nil: the error is
    logged, nothing is published, the index stays where it was, and the
    heartbeat goroutine is started all the same. *)
Theorem join_without_first_topology s c cn a n kinds sv ser w1 w2 e w3 :
  let p1 := join_fields (Some c) cn a n kinds sv (Some ser) (prov s) in
  let reg := registration p1 ser in
  let checkID := "service:" +:+ Sprintf_at cn a n in
  let q := api.mkQueryOptions (index (prov s)) (blockingWaitTime (prov s)) in
  api.Agent_ServiceRegister client reg (world s) = (None, w1) ->
  api.Agent_UpdateTTL client checkID "" api.HealthPassing w1 = (None, w2) ->
  api.Health_Service client cn "" false q w2 = (inl e, w3) ->
  RegisterMember (Some c) cn a n kinds sv (Some ser) s
  = Ret None
      (mkState (set_clusterError None p1) w3
         (trace s ++
            [EvServiceRegister reg None;
             EvUpdateTTL checkID "" api.HealthPassing None;
             EvHealthService cn "" false q (inl e);
             EvLog ("Error " +:+ e);
             EvGo "UpdateTTL"])).
Proof.
  intros p1 reg checkID q Hreg Httl Hq. subst p1 reg checkID q.
  open_state s.
  unfold RegisterMember, join_fields, registerService, blockingUpdateTTL,
    blockingStatusChange, UpdateTTL, notifyStatuses in *.
  run_go. rewrite <- !app_assoc. reflexivity.
Qed.

(** X3. A join whose forced renewal fails returns that error with the
    registration left in the directory: after the [ServiceRegister] call
    that succeeded there is only the failed renewal, no deregistration, no
    health query and no goroutine, and the error is the provider's health
    status. *)
Theorem join_fails_at_renewal s c cn a n kinds sv ser w1 e w2 :
  let p1 := join_fields c cn a n kinds sv (Some ser) (prov s) in
  let reg := registration p1 ser in
  let checkID := "service:" +:+ Sprintf_at cn a n in
  api.Agent_ServiceRegister client reg (world s) = (None, w1) ->
  api.Agent_UpdateTTL client checkID "" api.HealthPassing w1 = (Some e, w2) ->
  let s' :=
    mkState (set_clusterError (Some e) p1) w2
      (trace s ++ [EvServiceRegister reg None;
                   EvUpdateTTL checkID "" api.HealthPassing (Some e)]) in
  RegisterMember c cn a n kinds sv (Some ser) s = Ret (Some e) s'
  /\ GetHealthStatus s' = Ret (Some e) s'.
Proof.
  intros p1 reg checkID Hreg Httl s'. subst p1 reg checkID s'.
  open_state s.
  unfold RegisterMember, join_fields, registerService, blockingUpdateTTL,
    GetHealthStatus in *.
  run_go. rewrite <- !app_assoc. split; reflexivity.
Qed.

(** X4. Without a serializer nothing can be registered: [registerService], a
    status update with a status, and a join given a nil serializer all
    panic before any directory call, the update and the join having stored
    their arguments. *)
Theorem no_serializer_panics s :
  (statusValueSerializer (prov s) = None ->
   registerService s = Panic s
   /\ (shutdown (prov s) = false ->
       forall v, UpdateMemberStatusValue (Some v) s
                 = Panic (mkState (set_statusValue (Some v) (prov s))
                            (world s) (trace s))))
  /\ (forall c cn a n kinds sv,
        RegisterMember c cn a n kinds sv None s
        = Panic (mkState (join_fields c cn a n kinds sv None (prov s))
                   (world s) (trace s))).
Proof.
  split.
  - intros Hser. open_state s. split; [reflexivity|].
    intros Hsd v. simplify_eq. reflexivity.
  - intros c cn a n kinds sv. open_state s. reflexivity.
Qed.

End Join.

Section Leave.

Context `{Env}.

Implicit Types (s : State) (p : Provider).

(** X15. A first [Shutdown] of a provider that is still registered sets the
    flag, waits for the heartbeat goroutine and only then deregisters the
    ID under which the provider registered; when the directory accepts,
    both flags are set and nil is returned. *)
Theorem Shutdown_waits_then_deregisters s w1 :
  shutdown (prov s) = false ->
  deregistered (prov s) = false ->
  api.Agent_ServiceDeregister client (id (prov s)) (world s) = (None, w1) ->
  Shutdown s
  = Ret None
      (mkState (set_deregistered true (set_shutdown true (prov s))) w1
         (trace s ++ [EvWaitGroupWait; EvServiceDeregister (id (prov s)) None])).
Proof.
  intros Hsd Hd Hcall. open_state s.
  unfold Shutdown, DeregisterMember, deregisterService. run_go.
  rewrite <- !app_assoc. reflexivity.
Qed.

(** X16. When the deregistration made by [Shutdown] is refused, the error is
    returned but the provider stays shut down and not deregistered.
    Calling [Shutdown] again then returns nil without trying the directory
    again; only [DeregisterMember] still makes the call. *)
Theorem Shutdown_refused_is_not_retried s e w1 :
  shutdown (prov s) = false ->
  deregistered (prov s) = false ->
  api.Agent_ServiceDeregister client (id (prov s)) (world s) = (Some e, w1) ->
  let s1 :=
    mkState (set_shutdown true (prov s)) w1
      (trace s ++ [EvWaitGroupWait; EvServiceDeregister (id (prov s)) (Some e);
                   EvPrintln e]) in
  Shutdown s = Ret (Some e) s1
  /\ Shutdown s1 = Ret None s1
  /\ returned (DeregisterMember s1)
     = Some (api.Agent_ServiceDeregister client (id (prov s)) w1).1.
Proof.
  intros Hsd Hd Hcall s1. subst s1. open_state s.
  unfold Shutdown, DeregisterMember, deregisterService.
  destruct (api.Agent_ServiceDeregister client id0 w1) as [[e'|] w2] eqn:Hagain;
    run_go; rewrite <- !app_assoc; repeat split.
Qed.

(** X17. [DeregisterMember] followed by [Shutdown]: when the deregistration
    succeeds, [Shutdown] sets its flag and waits but makes no directory
    call, so the directory is asked to deregister exactly once. *)
Theorem Shutdown_after_DeregisterMember s w1 :
  shutdown (prov s) = false ->
  api.Agent_ServiceDeregister client (id (prov s)) (world s) = (None, w1) ->
  (DeregisterMember ;; Shutdown) s
  = Ret None
      (mkState (set_shutdown true (set_deregistered true (prov s))) w1
         (trace s ++ [EvServiceDeregister (id (prov s)) None; EvWaitGroupWait])).
Proof.
  intros Hsd Hcall. open_state s.
  unfold Shutdown, DeregisterMember, deregisterService. run_go.
  rewrite <- !app_assoc. reflexivity.
Qed.

End Leave.

Section Settings.

Context `{Env}.

Implicit Types (s : State) (p : Provider).

Lemma same_settings_refl p : same_settings p p.
Proof. by repeat split. Qed.

Lemma same_settings_trans p1 p2 p3 :
  same_settings p1 p2 -> same_settings p2 p3 -> same_settings p1 p3.
Proof.
  intros (? & ? & ? & ?) (? & ? & ? & ?). repeat split; congruence.
Qed.

Lemma framed_settings_exec o :
  framed same_settings (fun _ => True) (exec o).
Proof.
  pose proof same_settings_refl as Hrefl.
  pose proof same_settings_trans as Htrans.
  assert (Hreg : framed same_settings (fun _ => True) registerService)
    by (unfold registerService; framed).
  assert (Httl : framed same_settings (fun _ => True) blockingUpdateTTL)
    by (unfold blockingUpdateTTL; framed).
  assert (Hrange : forall ids,
             framed same_settings (fun _ => True) (range_services ids)).
  { induction ids as [|i rest IH]; cbn [range_services]; framed. }
  assert (Hbody : framed same_settings (fun _ => True) UpdateTTL_body).
  { unfold UpdateTTL_body, UpdateTTL_reregister. framed. }
  assert (Hloop : forall n,
             framed same_settings (fun _ => True) (UpdateTTL_loop n)).
  { induction n as [|n IH]; cbn [UpdateTTL_loop]; framed. }
  assert (Hnr : forall statuses i res,
             framed same_settings (fun _ => True)
               (notify_range i statuses res)).
  { induction statuses as [|v rest IH]; intros i res; cbn [notify_range];
      [framed|].
    apply framed_bind; [done | done | unfold notify_entry; framed |].
    intros ?. apply IH. }
  assert (Hns : framed same_settings (fun _ => True) notifyStatuses)
    by (unfold notifyStatuses; framed).
  assert (Hmon : forall n,
             framed same_settings (fun _ => True) (Monitor_loop n)).
  { induction n as [|n IH]; cbn [Monitor_loop]; framed. }
  assert (Hdm : framed same_settings (fun _ => True) DeregisterMember)
    by (unfold DeregisterMember, deregisterService; framed).
  destruct o; cbn [exec];
    unfold RegisterMember, Shutdown, UpdateTTL_goroutine,
      UpdateMemberStatusValue, deregisterService, blockingStatusChange,
      UpdateTTL, MonitorMemberStatusChanges, GetHealthStatus;
    framed.
Qed.

(** X18. No operation of the provider assigns to the four durations: over any
    sequence of operations, however it ends, the check TTL, the refresh
    interval, the deregistration delay and the blocking wait time are those
    the provider started with.  For a provider made by [NewWithConfig] the
    refresh interval therefore stays one second, below the three seconds of
    the TTL. *)
Theorem settings_never_change (ops : list Op) s :
  let p' := prov (final (run ops s)) in
  same_settings (prov s) p'
  /\ (forall newClient,
        NewWithConfig newClient = inr (prov s) ->
        refreshTTL p' = Second /\ ttl p' = (3 * Second)%Z
        /\ (refreshTTL p' < ttl p')%Z).
Proof.
  intros p'. subst p'.
  assert (Hrun : framed same_settings (fun _ => True) (run ops)).
  { pose proof same_settings_refl as Hrefl.
    pose proof same_settings_trans as Htrans.
    induction ops as [|o rest IH]; cbn [run]; [framed|].
    apply framed_bind; [done | done | apply framed_settings_exec |].
    intros _. exact IH. }
  pose proof (proj1 (Hrun s)) as Hset. split; [exact Hset|].
  destruct Hset as (Httl & Hrefresh & _).
  intros [err|]; cbn [NewWithConfig]; [discriminate|]. intros [= Hp].
  rewrite Hrefresh, Httl, <- Hp. cbn [ttl refreshTTL]. unfold Second. lia.
Qed.

End Settings.

Section Members.

Context `{Env}.

Implicit Types (s : State) (p : Provider).

(** X14. The status of a published member is read under the key under which
    [registerService] writes it: a member built from an entry that carries
    the meta data of the provider's registration has the status
    [Deserialize (Serialize statusValue)], and a member built from an entry
    without that key has the status [Deserialize ""]. *)
Theorem member_status_value s statuses meta w1 ser c i v :
  let q := api.mkQueryOptions (index (prov s)) (blockingWaitTime (prov s)) in
  api.Health_Service client (clusterName (prov s)) "" false q (world s)
    = (inr (statuses, meta), w1) ->
  statusValueSerializer (prov s) = Some ser ->
  cluster (prov s) = Some c ->
  statuses !! i = Some v ->
  exists evt ms,
    added s (final (notifyStatuses s))
    = [EvHealthService (clusterName (prov s)) "" false q (inr (statuses, meta));
       EvPublish c evt]
    /\ evt !! i = Some (Some ms)
    /\ (api.AgentService.Meta (api.Service v)
        = api.AgentServiceRegistration.Meta (registration (prov s) ser) ->
        cluster.StatusValue ms
        = cluster.Deserialize ser (cluster.Serialize ser (statusValue (prov s))))
    /\ (api.AgentService.Meta (api.Service v) !! "StatusValue" = None ->
        cluster.StatusValue ms = cluster.Deserialize ser "").
Proof.
  intros q Hq Hser Hc Hi.
  rewrite (notifyStatuses_ok s statuses meta w1 ser c Hq Hser Hc).
  eexists _, _. split.
  { unfold added. cbn [final trace]. by rewrite drop_app_length. }
  split; [by rewrite list_lookup_fmap, Hi|].
  unfold member_status, map_index. cbn [cluster.StatusValue]. split.
  - intros ->. unfold registration.
    cbn [api.AgentServiceRegistration.Meta].
    by rewrite lookup_singleton_eq.
  - intros ->. reflexivity.
Qed.

Lemma append_inj_r (a x y : string) : a +:+ x = a +:+ y -> x = y.
Proof.
  induction a as [|ch a IH]; cbn [String.append]; [done|].
  intros [= Heq]. by apply IH.
Qed.

Lemma itoa_inj n m : itoa n = itoa m -> n = m.
Proof.
  unfold itoa. intros Heq. apply DecimalZ.to_int_inj.
  assert (Hnn : forall z, Z.to_int z <> Decimal.Pos Decimal.Nil
                          /\ Z.to_int z <> Decimal.Neg Decimal.Nil).
  { intros [|p|p]; cbn; split; try discriminate;
      intros [= Hp]; by apply DecimalPos.Unsigned.to_uint_nonnil in Hp. }
  destruct (Hnn n) as [Hn1 Hn2]. destruct (Hnn m) as [Hm1 Hm2].
  pose proof (NilZero.isi _ Hn1 Hn2) as Hi.
  rewrite Heq, (NilZero.isi _ Hm1 Hm2) in Hi. congruence.
Qed.

(** X19. Two instances of one cluster on one address get different IDs, and
    different member IDs in a topology, as soon as their ports differ. *)
Theorem ids_distinguish_ports cn a n m :
  n <> m ->
  Sprintf_at cn a n <> Sprintf_at cn a m
  /\ Sprintf_slash cn a n <> Sprintf_slash cn a m.
Proof.
  intros Hne. unfold Sprintf_at, Sprintf_slash.
  split; intros Heq; apply Hne, itoa_inj;
    by do 4 apply append_inj_r in Heq.
Qed.

End Members.

(** ** The further properties on the scripted directory *)
Section More_scenarios.

#[local] Existing Instance Scripted.env.
#[local] Open Scope Z_scope.

(** The join on the directory in which everything succeeds. *)
Lemma join_succeeds_witness :
  let s := Scripted.start Scripted.healthy in
  let ser := Scripted.serializer in
  let p1 :=
    join_fields (Some "actorsystem") "mycluster" "127.0.0.1" 8080 ["A"; "B"]
      (Some "up") (Some ser) (prov s) in
  let q := api.mkQueryOptions 0 (20 * Second) in
  let statuses := [Scripted.entry "127.0.0.1" 8080 ["A"; "B"] "up" ["passing"]] in
  api.Agent_ServiceRegister client (registration p1 ser) (world s)
    = (None, Scripted.healthy)
  /\ api.Agent_UpdateTTL client ("service:" +:+ "mycluster@127.0.0.1:8080") ""
       api.HealthPassing Scripted.healthy = (None, Scripted.healthy)
  /\ api.Health_Service client "mycluster" "" false q Scripted.healthy
     = (inr (statuses, api.mkQueryMeta 7), world Scripted.joined)
  /\ returned (RegisterMember (Some "actorsystem") "mycluster" "127.0.0.1" 8080
                 ["A"; "B"] (Some "up") (Some ser) s) = Some None
  /\ knownKinds (prov Scripted.joined) = ["A"; "B"]
  /\ index (prov Scripted.joined) = 7.
Proof.
  intros s ser p1 q statuses.
  pose proof (join_succeeds s "actorsystem" "mycluster" "127.0.0.1" 8080
                ["A"; "B"] (Some "up") ser Scripted.healthy Scripted.healthy
                statuses (api.mkQueryMeta 7) (world Scripted.joined)
                eq_refl eq_refl eq_refl) as Hjoin.
  split; [reflexivity|]. split; [reflexivity|]. split; [reflexivity|].
  split; [exact (f_equal returned Hjoin)|].
  split.
  - exact (f_equal (fun r => knownKinds (prov (final r))) Hjoin).
  - exact (f_equal (fun r => index (prov (final r))) Hjoin).
Defined.

(** The join on a directory whose health queries fail. *)
Lemma join_without_first_topology_witness :
  let s := Scripted.start Cases.blind in
  let ser := Scripted.serializer in
  let p1 :=
    join_fields (Some "actorsystem") "mycluster" "127.0.0.1" 8080 ["A"; "B"]
      (Some "up") (Some ser) (prov s) in
  let q := api.mkQueryOptions 0 (20 * Second) in
  let r := RegisterMember (Some "actorsystem") "mycluster" "127.0.0.1" 8080
             ["A"; "B"] (Some "up") (Some ser) s in
  api.Agent_ServiceRegister client (registration p1 ser) (world s)
    = (None, Cases.blind)
  /\ api.Agent_UpdateTTL client ("service:" +:+ "mycluster@127.0.0.1:8080") ""
       api.HealthPassing Cases.blind = (None, Cases.blind)
  /\ api.Health_Service client "mycluster" "" false q Cases.blind
     = (inl "Unexpected response code: 500", Cases.blind)
  /\ returned r = Some None
  /\ filter (fun ev => is_publish ev = true) (trace (final r)) = []
  /\ last (trace (final r)) = Some (EvGo "UpdateTTL").
Proof.
  intros s ser p1 q r.
  pose proof (join_without_first_topology s "actorsystem" "mycluster"
                "127.0.0.1" 8080 ["A"; "B"] (Some "up") ser Cases.blind
                Cases.blind "Unexpected response code: 500" Cases.blind
                eq_refl eq_refl eq_refl) as Hjoin.
  split; [reflexivity|]. split; [reflexivity|]. split; [reflexivity|].
  split; [exact (f_equal returned Hjoin)|].
  split.
  - exact (f_equal (fun r => filter (fun ev => is_publish ev = true)
                                (trace (final r))) Hjoin).
  - exact (f_equal (fun r => last (trace (final r))) Hjoin).
Defined.

(** The join on a directory that registers but does not renew. *)
Lemma join_fails_at_renewal_witness :
  let s := Scripted.start Scripted.evicted in
  let ser := Scripted.serializer in
  let e := "check has no associated TTL" in
  let p1 :=
    join_fields (Some "actorsystem") "mycluster" "127.0.0.1" 8080 ["A"; "B"]
      (Some "up") (Some ser) (prov s) in
  let r := RegisterMember (Some "actorsystem") "mycluster" "127.0.0.1" 8080
             ["A"; "B"] (Some "up") (Some ser) s in
  api.Agent_ServiceRegister client (registration p1 ser) (world s)
    = (None, Scripted.evicted)
  /\ api.Agent_UpdateTTL client ("service:" +:+ "mycluster@127.0.0.1:8080") ""
       api.HealthPassing Scripted.evicted = (Some e, Scripted.evicted)
  /\ returned r = Some (Some e)
  /\ length (trace (final r)) = 2%nat
  /\ clusterError (prov (final r)) = Some e.
Proof.
  intros s ser e p1 r.
  destruct (join_fails_at_renewal s (Some "actorsystem") "mycluster"
              "127.0.0.1" 8080 ["A"; "B"] (Some "up") ser Scripted.evicted e
              Scripted.evicted eq_refl eq_refl) as [Hjoin _].
  split; [reflexivity|]. split; [reflexivity|].
  split; [exact (f_equal returned Hjoin)|].
  split; [exact (f_equal (fun r => length (trace (final r))) Hjoin)|].
  exact (f_equal (fun r => clusterError (prov (final r))) Hjoin).
Defined.

(** A heartbeat pass of the joined provider on the healthy directory. *)
Lemma heartbeat_pass_renewed_witness :
  let s := Scripted.joined in
  api.Agent_UpdateTTL client ("service:" +:+ id (prov s)) "" api.HealthPassing
    (world s) = (None, world s)
  /\ exists s',
       UpdateTTL_body s = Ret tt s'
       /\ added s s'
          = [EvUpdateTTL "service:mycluster@127.0.0.1:8080" "" "passing" None;
             EvSleep Second]
       /\ world s' = world s
       /\ clusterError (prov s') = None.
Proof.
  intros s. split; [reflexivity|].
  exact (heartbeat_pass_renewed s (world s) eq_refl).
Defined.

(** The heartbeat loop after the join and after [Shutdown]. *)
Lemma heartbeat_runs_until_shutdown_witness :
  (shutdown (prov Scripted.left) = true
   /\ UpdateTTL_loop 2 Scripted.left = Ret true Scripted.left)
  /\ (shutdown (prov Scripted.joined) = false
      /\ is_Some (statusValueSerializer (prov Scripted.joined))
      /\ exists s',
           UpdateTTL_loop 2 Scripted.joined = Ret false s'
           /\ shutdown (prov s') = false
           /\ length (filter (fun ev => is_renewal ev = true)
                        (added Scripted.joined s')) = 2%nat).
Proof.
  assert (Hser : is_Some (statusValueSerializer (prov Scripted.joined)))
    by (eexists; reflexivity).
  destruct (heartbeat_runs_until_shutdown 2 Scripted.left) as [Hstop _].
  destruct (heartbeat_runs_until_shutdown 2 Scripted.joined) as [_ Hrun].
  split.
  - split; [reflexivity | apply Hstop; reflexivity].
  - split; [reflexivity|]. split; [exact Hser|].
    exact (Hrun eq_refl Hser).
Defined.


(** The watch loop after the join and after [Shutdown]. *)
Lemma watch_runs_until_shutdown_witness :
  (shutdown (prov Scripted.left) = true
   /\ Monitor_loop 3 Scripted.left = Ret true Scripted.left)
  /\ (shutdown (prov Scripted.joined) = false
      /\ is_Some (statusValueSerializer (prov Scripted.joined))
      /\ is_Some (cluster (prov Scripted.joined))
      /\ exists s',
           Monitor_loop 3 Scripted.joined = Ret false s'
           /\ shutdown (prov s') = false
           /\ length (filter (fun ev => is_health_query ev = true)
                        (added Scripted.joined s')) = 3%nat).
Proof.
  assert (Hser : is_Some (statusValueSerializer (prov Scripted.joined)))
    by (eexists; reflexivity).
  assert (Hc : is_Some (cluster (prov Scripted.joined)))
    by (eexists; reflexivity).
  destruct (watch_runs_until_shutdown 3 Scripted.left) as [Hstop _].
  destruct (watch_runs_until_shutdown 3 Scripted.joined) as [_ Hrun].
  split.
  - split; [reflexivity | apply Hstop; reflexivity].
  - split; [reflexivity|]. split; [exact Hser|]. split; [exact Hc|].
    exact (Hrun eq_refl Hser Hc).
Defined.

(** The watch pass that follows the join, and the query after it. *)
Lemma watch_index_chain_witness :
  let s := Scripted.joined in
  let q := api.mkQueryOptions 7 (20 * Second) in
  let statuses :=
    [Scripted.entry "127.0.0.1" 8080 ["A"] "up" ["passing"];
     Scripted.entry "127.0.0.1" 8081 ["B"] "" []] in
  let s1 := final (notifyStatuses s) in
  api.Health_Service client "mycluster" "" false q (world s)
    = (inr (statuses, api.mkQueryMeta 9), Cases.blind)
  /\ statusValueSerializer (prov s) = Some Scripted.serializer
  /\ cluster (prov s) = Some "actorsystem"
  /\ index (prov s1) = 9
  /\ exists r rest,
       added s1 (final (notifyStatuses s1))
       = EvHealthService "mycluster" "" false
           (api.mkQueryOptions 9 (20 * Second)) r :: rest.
Proof.
  intros s q statuses s1.
  destruct (watch_index_chain s statuses (api.mkQueryMeta 9) Cases.blind
              Scripted.serializer "actorsystem" eq_refl eq_refl eq_refl)
    as [Hindex Hnext].
  split; [reflexivity|]. split; [reflexivity|]. split; [reflexivity|].
  split; [exact Hindex | exact Hnext].
Defined.

(** Three watch passes of the joined provider. *)
Lemma watch_keeps_kinds_of_joined_witness :
  let s := Scripted.joined in
  id (prov s) = Sprintf_at (clusterName (prov s)) "127.0.0.1" 8080
  /\ knownKinds (prov (final (Monitor_loop 3 s))) = ["A"; "B"].
Proof.
  intros s. split; [reflexivity|].
  exact (proj1 (watch_keeps_kinds_of_joined 3 s "127.0.0.1" 8080 eq_refl)).
Defined.

(** The provider made by [NewWithConfig], before any join. *)
Lemma no_serializer_panics_witness :
  let s := Scripted.start Scripted.healthy in
  statusValueSerializer (prov s) = None
  /\ shutdown (prov s) = false
  /\ registerService s = Panic s
  /\ UpdateMemberStatusValue (Some "busy") s
     = Panic (mkState (set_statusValue (Some "busy") (prov s))
                (world s) (trace s)).
Proof.
  intros s.
  destruct (proj1 (no_serializer_panics s) eq_refl) as [Hreg Hupd].
  split; [reflexivity|]. split; [reflexivity|]. split; [exact Hreg|].
  exact (Hupd eq_refl "busy").
Defined.

(** [Shutdown] of the joined provider on the healthy directory. *)
Lemma Shutdown_waits_then_deregisters_witness :
  let s := Scripted.joined in
  shutdown (prov s) = false
  /\ deregistered (prov s) = false
  /\ api.Agent_ServiceDeregister client (id (prov s)) (world s)
     = (None, world s)
  /\ added s (final (Shutdown s))
     = [EvWaitGroupWait; EvServiceDeregister "mycluster@127.0.0.1:8080" None].
Proof.
  intros s. split; [reflexivity|]. split; [reflexivity|].
  split; [reflexivity|].
  exact (f_equal (fun r => added s (final r))
           (Shutdown_waits_then_deregisters s (world s)
              eq_refl eq_refl eq_refl)).
Defined.

(** [Shutdown] of the joined provider on the refusing directory. *)
Lemma Shutdown_refused_is_not_retried_witness :
  let s := Scripted.facing Scripted.refusing Scripted.joined in
  let e := "connection refused" in
  shutdown (prov s) = false
  /\ deregistered (prov s) = false
  /\ api.Agent_ServiceDeregister client (id (prov s)) (world s)
     = (Some e, Scripted.refusing)
  /\ exists s1,
       Shutdown s = Ret (Some e) s1
       /\ deregistered (prov s1) = false
       /\ Shutdown s1 = Ret None s1.
Proof.
  intros s e.
  destruct (Shutdown_refused_is_not_retried s e Scripted.refusing
              eq_refl eq_refl eq_refl) as (Hfirst & Hsecond & _).
  split; [reflexivity|]. split; [reflexivity|]. split; [reflexivity|].
  eexists. split; [exact Hfirst|]. split; [reflexivity | exact Hsecond].
Defined.

(** [DeregisterMember] and then [Shutdown] of the joined provider. *)
Lemma Shutdown_after_DeregisterMember_witness :
  let s := Scripted.joined in
  shutdown (prov s) = false
  /\ api.Agent_ServiceDeregister client (id (prov s)) (world s)
     = (None, world s)
  /\ length (filter (fun ev => is_deregister_call ev = true)
               (added s (final ((DeregisterMember ;; Shutdown) s)))) = 1%nat.
Proof.
  intros s. split; [reflexivity|]. split; [reflexivity|].
  exact (f_equal (fun r => length (filter (fun ev => is_deregister_call ev = true)
                                     (added s (final r))))
           (Shutdown_after_DeregisterMember s (world s) eq_refl eq_refl)).
Defined.

(** A run from the provider made by [NewWithConfig]. *)
Lemma settings_never_change_witness :
  let s := Scripted.start Scripted.healthy in
  let ops :=
    [OpRegisterMember (Some "actorsystem") "mycluster" "127.0.0.1" 8080
       ["A"; "B"] (Some "up") (Some Scripted.serializer);
     OpUpdateTTL_goroutine 2; OpnotifyStatuses; OpShutdown] in
  NewWithConfig None = inr (prov s)
  /\ refreshTTL (prov (final (run ops s))) = Second
  /\ ttl (prov (final (run ops s))) = 3 * Second.
Proof.
  intros s ops.
  destruct (proj2 (settings_never_change ops s) None eq_refl)
    as (Hrefresh & Httl & _).
  split; [reflexivity|]. split; [exact Hrefresh | exact Httl].
Defined.

(** The watch pass after the join, and a pass over an entry without meta
    data. *)
Lemma member_status_value_witness :
  let s := Scripted.joined in
  let v := Scripted.entry "127.0.0.1" 8080 ["A"] "up" ["passing"] in
  let statuses := [v; Scripted.entry "127.0.0.1" 8081 ["B"] "" []] in
  let s2 := Scripted.facing Cases.unlabelled Scripted.joined in
  let v2 :=
    api.mkServiceEntry
      (api.AgentService.mk "other" "mycluster" [] "10.0.0.9" 80 ∅) [] in
  (api.Health_Service client "mycluster" "" false
     (api.mkQueryOptions 7 (20 * Second)) (world s)
   = (inr (statuses, api.mkQueryMeta 9), Cases.blind)
   /\ api.AgentService.Meta (api.Service v)
      = api.AgentServiceRegistration.Meta
          (registration (prov s) Scripted.serializer)
   /\ exists (evt : list (option (cluster.MemberStatus string))) ms,
        evt !! 0%nat = Some (Some ms)
        /\ cluster.StatusValue ms = Some "up")
  /\ (api.Health_Service client "mycluster" "" false
        (api.mkQueryOptions 7 (20 * Second)) (world s2)
      = (inr ([v2], api.mkQueryMeta 11), Cases.blind)
      /\ api.AgentService.Meta (api.Service v2) !! "StatusValue" = None
      /\ exists (evt : list (option (cluster.MemberStatus string))) ms,
           evt !! 0%nat = Some (Some ms)
           /\ cluster.StatusValue ms = None).
Proof.
  intros s v statuses s2 v2.
  destruct (member_status_value s statuses (api.mkQueryMeta 9) Cases.blind
              Scripted.serializer "actorsystem" 0%nat v
              eq_refl eq_refl eq_refl eq_refl)
    as (evt & ms & _ & Hms & Hsame & _).
  destruct (member_status_value s2 [v2] (api.mkQueryMeta 11) Cases.blind
              Scripted.serializer "actorsystem" 0%nat v2
              eq_refl eq_refl eq_refl eq_refl)
    as (evt2 & ms2 & _ & Hms2 & _ & Hmissing).
  split.
  - split; [reflexivity|]. split; [reflexivity|].
    exists evt, ms. split; [exact Hms|]. exact (Hsame eq_refl).
  - split; [reflexivity|]. split; [reflexivity|].
    exists evt2, ms2. split; [exact Hms2|]. exact (Hmissing eq_refl).
Defined.

(** Two ports of one host. *)
Lemma ids_distinguish_ports_witness :
  8080 <> 8081
  /\ Sprintf_at "mycluster" "127.0.0.1" 8080
     <> Sprintf_at "mycluster" "127.0.0.1" 8081.
Proof.
  assert (Hne : 8080 <> 8081) by discriminate.
  split; [exact Hne|].
  exact (proj1 (ids_distinguish_ports "mycluster" "127.0.0.1" 8080 8081 Hne)).
Defined.

End More_scenarios.
